(** * A three-stage OCR pipeline: splitter, batch OCR driver, merger

    Shallow embedding of [split_pdf.py], [batch_ocr.py] and
    [merge_ocr_results.py].  The three programs communicate only through the
    file system, so each is modelled as a function over an explicit store of
    files; the remote OCR service of the driver is an oracle that answers the
    n-th request of a run. *)

From Stdlib Require Import Ascii String Floats.PrimFloat DecimalString DecimalNat.
From stdpp Require Import gmap strings list sorting.

Local Open Scope string_scope.
Local Open Scope list_scope.
Local Open Scope nat_scope.

(** ** Python primitives used by the three scripts *)

Module Py.

(** [a <= b] on [str]: lexicographic by code point, which on UTF-8 encoded
    names is the byte order of [String.leb]. *)
Definition str_le : relation string := String.le.

(** [sorted(l)] for a list of [str].  The order is total, so every correct
    sort returns the same list. *)
Definition sorted (l : list string) : list string := merge_sort str_le l.

(** [s.endswith(suffix)] *)
Definition endswith (s suffix : string) : bool :=
  let n := String.length s in
  let k := String.length suffix in
  (k <=? n)%nat && String.eqb (String.substring (n - k) k s) suffix.

(** [s.startswith(prefix)] *)
Fixpoint startswith (s pre : string) {struct pre} : bool :=
  match pre with
  | "" => true
  | String a pre' =>
      match s with
      | "" => false
      | String b s' => Ascii.eqb b a && startswith s' pre'
      end
  end.

(** [str(n)] for a non-negative [int]. *)
Definition str_of_nat (n : nat) : string :=
  NilZero.string_of_uint (Nat.to_uint n).

(** ["0" * k] *)
Fixpoint zeros (k : nat) : string :=
  match k with
  | O => ""
  | S k' => String "0"%char (zeros k')
  end.

(** [f"{n:03d}"] for a non-negative [int]: the decimal digits, padded on
    the left with zeros to a width of at least three. *)
Definition format_03d (n : nat) : string :=
  let s := str_of_nat n in
  zeros (3 - String.length s) +:+ s.

(** [os.path.join(a, b)] of [posixpath]. *)
Definition os_path_join (a b : string) : string :=
  if startswith b "/" then b
  else if String.eqb a "" || endswith a "/" then a +:+ b
  else a +:+ "/" +:+ b.

(** [''.join(parts)], which is what [f.writelines(parts)] writes. *)
Fixpoint concat (parts : list string) : string :=
  match parts with
  | [] => ""
  | p :: ps => p +:+ concat ps
  end.

(** [c * k] for a one-character string. *)
Fixpoint repeat_char (c : ascii) (k : nat) : string :=
  match k with
  | O => ""
  | S k' => String c (repeat_char c k')
  end.

(** Reading a text file opened with the default [newline=None]: the line
    endings CR LF and CR both come back as LF. *)
Fixpoint universal_newlines (s : string) : string :=
  match s with
  | "" => ""
  | String c rest =>
      if Ascii.eqb c "013"%char then
        match rest with
        | String d rest' =>
            if Ascii.eqb d "010"%char then String "010"%char (universal_newlines rest')
            else String "010"%char (universal_newlines rest)
        | "" => String "010"%char ""
        end
      else String c (universal_newlines rest)
  end.

(** Reading a decimal numeral back, leading zeros allowed. *)
Definition parse_nat (s : string) : option nat :=
  Nat.of_uint <$> NilEmpty.uint_of_string s.

End Py.

(** ** split_pdf.py *)

Module Splitter.

Section WithPages.
(** What [pypdf] hands over for one page of the source document. *)
Context {page : Type}.

(** The store seen by the splitter: the directories that exist and the
    PDF files, each a list of pages. *)
Record store := {
  dirs : gset string;
  pdfs : gmap string (list page)
}.

(** [os.makedirs(output_dir, exist_ok=True)] *)
Definition makedirs (d : string) (st : store) : store :=
  {| dirs := {[ d ]} ∪ dirs st; pdfs := pdfs st |}.

(** [PdfWriter(); add_page(page); write(f)] into [open(path, "wb")]. *)
Definition write_single_page (path : string) (p : page) (st : store) : store :=
  {| dirs := dirs st; pdfs := <[ path := [p] ]> (pdfs st) |}.

(** The name given to the page at 0-based index [i]:
    [f"page_{i+1:03d}.pdf"]. *)
Definition page_name (i : nat) : string :=
  "page_" +:+ Py.format_03d (i + 1) +:+ ".pdf".

(** The body of [for i, page in enumerate(reader.pages)], started at
    index [i]. *)
Fixpoint split_loop (output_dir : string) (i : nat) (pages : list page)
    (st : store) : store :=
  match pages with
  | [] => st
  | p :: rest =>
      let output_path := Py.os_path_join output_dir (page_name i) in
      split_loop output_dir (S i) rest (write_single_page output_path p st)
  end.

(** [split_pdf(input_pdf_path, output_dir)] on a readable document whose
    pages are [pages]: the returned page count and the store left
    behind. *)
Definition split_pdf (pages : list page) (output_dir : string) (st : store)
    : nat * store :=
  let st := makedirs output_dir st in
  let total_pages := length pages in
  (total_pages, split_loop output_dir 0 pages st).

End WithPages.

Arguments store : clear implicits.


(** The paths written for the pages at indices [i], ..., [i + n - 1]. *)
Definition output_paths (output_dir : string) (i n : nat) : list string :=
  (λ k, Py.os_path_join output_dir (page_name k)) <$> seq i n.

End Splitter.

(** ** batch_ocr.py *)

Module Driver.

(** *** Values and exceptions *)

(** What [response.json()] can return: a decoded JSON document.  A JSON
    object becomes a [dict] with [str] keys. *)
#[warnings="-register-all"] Inductive pyval :=
| PNone
| PBool (b : bool)
| PInt (z : Z)
| PFloat (f : float)
| PStr (s : string)
| PList (l : list pyval)
| PDict (d : gmap string pyval).

(** The exceptions that can travel through [process_single_file]. *)
Inductive pyexc :=
| Timeout                       (* requests.exceptions.Timeout and subclasses *)
| RequestError (msg : string)   (* any other exception out of requests.post *)
| KeyError (key : pyval)
| IndexError
| TypeError.

(** [type(v)], as [str(type(v))] names it. *)
Inductive pytype := TNoneType | TBool | TInt | TFloat | TStr | TList | TDict.

Definition type_of (v : pyval) : pytype :=
  match v with
  | PNone => TNoneType
  | PBool _ => TBool
  | PInt _ => TInt
  | PFloat _ => TFloat
  | PStr _ => TStr
  | PList _ => TList
  | PDict _ => TDict
  end.

(** [isinstance(v, dict)] *)
Definition isinstance_dict (v : pyval) : bool :=
  match v with PDict _ => true | _ => false end.

(** [d.get(key, default)] on a [dict]. *)
Definition dict_get (d : gmap string pyval) (key : string) (default : pyval)
    : pyval :=
  match d !! key with
  | Some v => v
  | None => default
  end.

(** [v == 1]: an [int] 1, the [bool] [True] and the [float] 1.0 all compare
    equal to 1. *)
Definition eq_one (v : pyval) : bool :=
  match v with
  | PInt z => (z =? 1)%Z
  | PBool b => b
  | PFloat f => PrimFloat.eqb f 1%float
  | _ => false
  end.

(** The bytes of the first code point of a UTF-8 string: the leading byte
    and the continuation bytes (10xxxxxx) after it. *)
Definition is_continuation (c : ascii) : bool :=
  match c with
  | Ascii _ _ _ _ _ _ b6 b7 => b7 && negb b6
  end.

Fixpoint take_continuation (s : string) : string :=
  match s with
  | String c rest =>
      if is_continuation c then String c (take_continuation rest) else ""
  | "" => ""
  end.

(** [v[key]] for a [str] key. *)
Definition getitem_key (v : pyval) (key : string) : pyexc + pyval :=
  match v with
  | PDict d =>
      match d !! key with
      | Some x => inr x
      | None => inl (KeyError (PStr key))
      end
  | _ => inl TypeError      (* not subscriptable, or indices must be integers *)
  end.

(** [v[0]] *)
Definition getitem_0 (v : pyval) : pyexc + pyval :=
  match v with
  | PList (x :: _) => inr x
  | PList [] => inl IndexError
  | PStr (String c rest) => inr (PStr (String c (take_continuation rest)))
  | PStr "" => inl IndexError
  | PDict _ => inl (KeyError (PInt 0))   (* the keys of a decoded object are str *)
  | _ => inl TypeError
  end.

(** *** The world the driver runs in *)

(** An argument of [time.sleep]. *)
Inductive delay :=
| Seconds (n : Z)
| FloatSeconds (f : float).

(** What goes into [error_msg] of a failed attempt. *)
Inductive error_msg :=
| FromResponse (v : pyval)   (* ErrorMessage, else error, else "未知错误" *)
| BadFormat (t : pytype).    (* f"API返回格式错误: {type(result)}" *)

(** One call of [self.log]; the time stamp in front of the line is left
    out.  Each constructor stands for the format string next to it. *)
Inductive event :=
| LogSkip (filename : string)             (* "⏭️  跳过已处理: {filename}" *)
| LogAttempt (n max : Z) (filename : string)
                               (* "📄 [{retry+1}/{max_retries}] OCR处理: {filename}" *)
| LogSuccess (filename : string)          (* "✅ 成功: {filename}" *)
| LogFailure (filename : string) (e : error_msg)
                                          (* "❌ 失败: {filename} - {error_msg}" *)
| LogWait (wait_time : Z)                 (* "⏳ 等待 {wait_time} 秒后重试..." *)
| LogTimeout (filename : string)          (* "⏱️  超时: {filename}" *)
| LogException (filename : string) (e : pyexc)
                                          (* "⚠️  异常: {filename} - {str(e)}" *)
| LogFinalFailure (filename : string)     (* "💥 最终失败: {filename}" *)
| LogNoFiles (pdf_dir : string)  (* "❌ 错误: 在 {pdf_dir} 中没有找到PDF文件" *)
| LogStart (total : nat)         (* "📚 开始批量OCR处理, 共 {total} 个文件" *)
| LogRule                                 (* "=" * 50 *)
| LogProgress (idx total : nat)           (* "📍 进度: [{idx}/{total}]" *)
| LogDone                                 (* "📊 处理完成!" *)
| LogSucceeded (success_count total : nat)
                                 (* "   ✅ 成功: {success_count}/{total}" *)
| LogFailed (failed_count total : nat)
                                 (* "   ❌ 失败: {failed_count}/{total}" *)
| LogSavedIn (output_dir : string).       (* "📁 结果保存在: {output_dir}/" *)

(** The state a run goes through: the text files by path (what
    [os.path.exists(txt_path)] and [open(txt_path, "w")] see), the lines
    logged so far, the number of requests sent to the OCR service and the
    pauses taken. *)
Record world := {
  texts : gmap string string;
  log : list event;
  calls : nat;
  sleeps : list delay
}.

(** The body of an HTTP response: one that [response.json()] decodes, or
    one it rejects, of which [response.text] is kept. *)
Inductive http_body :=
| JsonBody (v : pyval)
| RawBody (text : string).

(** How one [requests.post] ends. *)
Inductive post_result :=
| PostTimeout
| PostError (msg : string)
| PostResponse (b : http_body).

(** The OCR service: the answer to the request numbered [n] (from 0) of
    the run, sent for the file at [pdf_path]. *)
Definition service := nat → string → post_result.

(** The settings [OCRProcessor.__init__] reads that steer the control
    flow; the others are parameters of the request, which the service
    stands for. *)
Record config := {
  max_retries : Z;
  sleep_time : float
}.

(** [self.output_dir] *)
Definition output_dir : string := "ocr_text".

(** *** Code that may raise: state passing with an exception *)

Definition M (A : Type) : Type := world → (pyexc + A) * world.

Definition raise {A} (e : pyexc) : M A := λ w, (inl e, w).

#[global] Instance M_ret : MRet M := λ A a w, (inr a, w).
#[global] Instance M_bind : MBind M := λ A B k m w,
  match m w with
  | (inr a, w') => k a w'
  | (inl e, w') => (inl e, w')
  end.

(** A subscript or a lookup that raises or gives a value. *)
Definition lift {A} (r : pyexc + A) : M A := λ w, (r, w).

(** [self.log(message)] *)
Definition write_log (e : event) : M unit :=
  λ w, (inr tt, {| texts := texts w; log := log w ++ [e];
                   calls := calls w; sleeps := sleeps w |}).

(** [time.sleep(d)] *)
Definition sleep (d : delay) : M unit :=
  λ w, (inr tt, {| texts := texts w; log := log w;
                   calls := calls w; sleeps := sleeps w ++ [d] |}).

(** [requests.post(...)]: the request is counted and the service answers. *)
Definition post (api : service) (pdf_path : string) : M http_body :=
  λ w, let w' := {| texts := texts w; log := log w;
                    calls := S (calls w); sleeps := sleeps w |} in
       match api (calls w) pdf_path with
       | PostTimeout => (inl Timeout, w')
       | PostError msg => (inl (RequestError msg), w')
       | PostResponse b => (inr b, w')
       end.

(** [os.path.exists(path)] *)
Definition path_exists (path : string) (w : world) : bool :=
  bool_decide (is_Some (texts w !! path)).

(** [open(path, "w", encoding="utf-8")]: the file is created, or emptied
    when it exists. *)
Definition open_w (path : string) : M unit :=
  λ w, (inr tt, {| texts := <[ path := "" ]> (texts w); log := log w;
                   calls := calls w; sleeps := sleeps w |}).

(** [f.write(text)] on the file just opened at [path]: only a [str] can be
    written. *)
Definition file_write (path : string) (text : pyval) : M unit :=
  match text with
  | PStr s =>
      λ w, (inr tt, {| texts := <[ path := s ]> (texts w); log := log w;
                       calls := calls w; sleeps := sleeps w |})
  | _ => raise TypeError
  end.

(** [os.path.basename(path)]: what follows the last slash. *)
Fixpoint basename_go (cur : string) (p : string) : string :=
  match p with
  | "" => String.rev cur
  | String c rest =>
      if Ascii.eqb c "/"%char then basename_go "" rest
      else basename_go (String c cur) rest
  end.
Definition basename (p : string) : string := basename_go "" p.

(** *** ocr_single_pdf *)

(** What [ocr_single_pdf] returns for a response: the decoded document,
    or the stand-in [dict] that keeps the raw body. *)
Definition json_or_error (response : http_body) : pyval :=
  match response with
  | JsonBody v => v
  | RawBody text =>
      PDict (<[ "error" := PStr "Invalid JSON response" ]>
               (<[ "text" := PStr text ]> ∅))
  end.

Definition ocr_single_pdf (api : service) (pdf_path : string) : M pyval :=
  response ← post api pdf_path;
  mret (json_or_error response).

(** *** process_single_file *)

(** How one turn of [for retry in range(self.max_retries)] ends: with a
    [return], or by going on to the next turn. *)
Inductive flow :=
| Returned (b : bool)
| Next.

(** [result.get("ErrorMessage", result.get("error", "未知错误"))] for a
    [dict], the format complaint otherwise. *)
Definition error_msg_of (result : pyval) : error_msg :=
  match result with
  | PDict d =>
      FromResponse
        (dict_get d "ErrorMessage" (dict_get d "error" (PStr "未知错误")))
  | _ => BadFormat (type_of result)
  end.

(** [isinstance(result, dict) and result.get("OCRExitCode") == 1] *)
Definition exit_code_ok (result : pyval) : bool :=
  match result with
  | PDict d => eq_one (dict_get d "OCRExitCode" PNone)
  | _ => false
  end.

Section Processor.
Variable cfg : config.
Variable api : service.

(** The statements under [try:]. *)
Definition try_body (retry : Z) (filename pdf_path txt_path : string)
    : M flow :=
  write_log (LogAttempt (retry + 1) (max_retries cfg) filename);;
  result ← ocr_single_pdf api pdf_path;
  if exit_code_ok result then
    parsed_results ← lift (getitem_key result "ParsedResults");
    first ← lift (getitem_0 parsed_results);
    text ← lift (getitem_key first "ParsedText");
    open_w txt_path;;
    file_write txt_path text;;
    write_log (LogSuccess filename);;
    mret (Returned true)
  else
    write_log (LogFailure filename (error_msg_of result));;
    (if (retry <? max_retries cfg - 1)%Z then
       let wait_time := ((retry + 1) * 2)%Z in
       write_log (LogWait wait_time);;
       sleep (Seconds wait_time)
     else mret tt);;
    mret Next.

(** [if retry < self.max_retries - 1: time.sleep(5)] of both handlers. *)
Definition handler_pause (retry : Z) : M unit :=
  if (retry <? max_retries cfg - 1)%Z then sleep (Seconds 5) else mret tt.

(** One turn of the loop: the [try] with its two [except] clauses.
    Neither handler raises, so a turn always ends in a [flow]. *)
Definition attempt (retry : Z) (filename pdf_path txt_path : string)
    (w : world) : flow * world :=
  match try_body retry filename pdf_path txt_path w with
  | (inr f, w') => (f, w')
  | (inl Timeout, w') =>
      match (write_log (LogTimeout filename);; handler_pause retry) w' with
      | (_, w'') => (Next, w'')
      end
  | (inl e, w') =>
      match (write_log (LogException filename e);; handler_pause retry) w' with
      | (_, w'') => (Next, w'')
      end
  end.

(** [for retry in retries: ...], left at the first [return]. *)
Fixpoint retry_loop (retries : list Z) (filename pdf_path txt_path : string)
    (w : world) : flow * world :=
  match retries with
  | [] => (Next, w)
  | retry :: rest =>
      match attempt retry filename pdf_path txt_path w with
      | (Returned b, w') => (Returned b, w')
      | (Next, w') => retry_loop rest filename pdf_path txt_path w'
      end
  end.

(** [range(n)] *)
Definition range (n : Z) : list Z := seqZ 0 n.

Definition process_single_file (pdf_path txt_path : string) (w : world)
    : bool * world :=
  let filename := basename pdf_path in
  if path_exists txt_path w then
    match write_log (LogSkip filename) w with
    | (_, w') => (true, w')
    end
  else
    match retry_loop (range (max_retries cfg)) filename pdf_path txt_path w with
    | (Returned b, w') => (b, w')
    | (Next, w') =>
        match write_log (LogFinalFailure filename) w' with
        | (_, w'') => (false, w'')
        end
    end.

(** *** batch_process *)

(** The two counters of the loop. *)
Record tally := {
  success_count : nat;
  failed_count : nat
}.

(** The paths [batch_process] builds for one page file. *)
Definition pdf_path_of (pdf_dir pdf_file : string) : string :=
  Py.os_path_join pdf_dir pdf_file.
Definition txt_name (pdf_file : string) : string := pdf_file +:+ ".txt".
Definition txt_path_of (pdf_file : string) : string :=
  Py.os_path_join output_dir (txt_name pdf_file).

(** [for idx, pdf_file in enumerate(pdf_files, start=1)], entered at
    index [idx] with the files still to go. *)
Fixpoint batch_loop (pdf_dir : string) (total idx : nat)
    (pdf_files : list string) (t : tally) (w : world) : tally * world :=
  match pdf_files with
  | [] => (t, w)
  | pdf_file :: rest =>
      let pdf_path := pdf_path_of pdf_dir pdf_file in
      let txt_path := txt_path_of pdf_file in
      let w := (write_log (LogProgress idx total) w).2 in
      let '(success, w) := process_single_file pdf_path txt_path w in
      let t := if success
               then {| success_count := success_count t + 1;
                       failed_count := failed_count t |}
               else {| success_count := success_count t;
                       failed_count := failed_count t + 1 |} in
      let w := if (idx <? total)%nat
               then (sleep (FloatSeconds (sleep_time cfg)) w).2
               else w in
      batch_loop pdf_dir total (S idx) rest t w
  end.

(** [sorted([f for f in os.listdir(pdf_dir) if f.endswith(".pdf")])] *)
Definition discover (listing : list string) : list string :=
  Py.sorted (filter (λ f, Py.endswith f ".pdf" = true) listing).

(** The five summary lines. *)
Definition summary (total : nat) (t : tally) : list event :=
  [ LogRule; LogDone; LogSucceeded (success_count t) total;
    LogFailed (failed_count t) total; LogSavedIn output_dir ].

Definition write_logs (es : list event) (w : world) : world :=
  foldl (λ w e, (write_log e w).2) w es.

(** [batch_process(pdf_dir)], where [listing] is what
    [os.listdir(pdf_dir)] returns.  The counters, which the Python code
    only logs, are returned next to the world. *)
Definition batch_process (pdf_dir : string) (listing : list string)
    (w : world) : option tally * world :=
  let pdf_files := discover listing in
  match pdf_files with
  | [] => (None, (write_log (LogNoFiles pdf_dir) w).2)
  | _ =>
      let total := length pdf_files in
      let w := write_logs [LogStart total; LogRule] w in
      let '(t, w) := batch_loop pdf_dir total 1 pdf_files
                       {| success_count := 0; failed_count := 0 |} w in
      (Some t, write_logs (summary total t) w)
  end.

End Processor.

(** *** Vocabulary of the specification *)

(** The value of [result["ParsedResults"][0]["ParsedText"]] when the
    response has one: the parsed results are a list that starts with a
    [dict] holding that key. *)
Definition first_parsed_text (result : pyval) : option pyval :=
  match result with
  | PDict d =>
      match d !! "ParsedResults" with
      | Some (PList (PDict p :: _)) => p !! "ParsedText"
      | _ => None
      end
  | _ => None
  end.

(** A parsed-text payload: the first parsed result carries its text as a
    [str]. *)
Definition parsed_text (result : pyval) : option string :=
  match first_parsed_text result with
  | Some (PStr s) => Some s
  | _ => None
  end.

(** The success condition on the answer to a request: a response with the
    engine's exit code 1 and a parsed-text payload, whose text is given. *)
Definition success_text (r : post_result) : option string :=
  match r with
  | PostResponse b =>
      if exit_code_ok (json_or_error b) then parsed_text (json_or_error b)
      else None
  | _ => None
  end.

(** The API fails: the request times out or raises, or the response lacks
    the exit code 1, or it carries no parsed text at all. *)
Definition api_fails (r : post_result) : bool :=
  match r with
  | PostTimeout | PostError _ => true
  | PostResponse b =>
      negb (exit_code_ok (json_or_error b)
            && bool_decide (is_Some (first_parsed_text (json_or_error b))))
  end.

(** The response the specification leaves open: exit code 1 with an empty
    list of parsed results. *)
Definition empty_parsed_results (result : pyval) : bool :=
  exit_code_ok result &&
  match result with
  | PDict d =>
      match d !! "ParsedResults" with
      | Some (PList []) => true
      | _ => false
      end
  | _ => false
  end.

(** What processing a page can do to the text files: nothing, or
    (re)write the page's own output. *)
Definition touched (txt_path : string) (m m' : gmap string string) : Prop :=
  m' = m ∨ ∃ s, m' = <[ txt_path := s ]> m.

(** The world in which the page at index [idx] of [total] is processed,
    and the world after the pause that may follow it. *)
Definition at_page (total idx : nat) (w : world) : world :=
  (write_log (LogProgress idx total) w).2.
Definition after_page (cfg : config) (total idx : nat) (w : world) : world :=
  if (idx <? total)%nat then (sleep (FloatSeconds (sleep_time cfg)) w).2
  else w.




(** A later world of the same run: the log and the pauses only grow. *)
Definition extends (w w' : world) : Prop :=
  log w `prefix_of` log w' ∧ sleeps w `prefix_of` sleeps w'.

End Driver.

(** ** merge_ocr_results.py *)

Module Merger.

(** One call of [print]. *)
Inductive line :=
| PrintNoFiles (input_dir : string)
                        (* "❌ 错误: 在 {input_dir} 中没有找到文本文件" *)
| PrintFound (n : nat)  (* "📚 找到 {len(txt_files)} 个文本文件" *)
| PrintMerging          (* "🔄 开始合并..." *)
| PrintMergingClean     (* "🔄 开始合并（纯净版）..." *)
| PrintProgress (idx total : nat)
                        (* "进度: {idx}/{total} ({idx/total*100:.1f}%)" *)
| PrintDone             (* "✅ 合并完成!" *)
| PrintOutput (output_file : string)   (* "📁 输出文件: {output_file}" *)
| PrintPages (n : nat). (* "📊 总页数: {len(txt_files)}" *)

(** The text files by path, and what was printed. *)
Record world := {
  texts : gmap string string;
  stdout : list line
}.

Definition print (l : line) (w : world) : world :=
  {| texts := texts w; stdout := stdout w ++ [l] |}.

(** [open(path, "r", encoding="utf-8").read()]: [None] when there is no
    such file, in which case Python raises. *)
Definition read_text (path : string) (w : world) : option string :=
  Py.universal_newlines <$> texts w !! path.

(** [open(path, "w", encoding="utf-8").writelines(parts)] *)
Definition write_lines (path : string) (parts : list string) (w : world)
    : world :=
  {| texts := <[ path := Py.concat parts ]> (texts w); stdout := stdout w |}.

(** [sorted([f for f in os.listdir(input_dir) if f.endswith(".txt")])] *)
Definition discover (listing : list string) : list string :=
  Py.sorted (filter (λ f, Py.endswith f ".txt" = true) listing).

(** A line feed. *)
Definition nl : string := String "010"%char "".

(** The three banner strings put in front of a file's content. *)
Definition rule : string := Py.repeat_char "="%char 60.
Definition banner (txt_file : string) : list string :=
  [ String "010"%char rule +:+ String "010"%char "";
    "📄 文件: " +:+ txt_file +:+ String "010"%char "";
    rule +:+ String "010"%char "" ].

(** The loop of [merge_ocr_results], entered at index [idx]: the parts
    appended to [all_text] and the progress printed, or [None] when a read
    raises. *)
Fixpoint merge_loop (input_dir : string) (total idx : nat)
    (txt_files : list string) (all_text : list string) (w : world)
    : option (list string * world) :=
  match txt_files with
  | [] => Some (all_text, w)
  | txt_file :: rest =>
      let txt_path := Py.os_path_join input_dir txt_file in
      content ← read_text txt_path w;
      let all_text := (all_text ++ banner txt_file ++ [content])%list in
      let w := if (idx mod 50 =? 0)%nat || (idx =? total)%nat
               then print (PrintProgress idx total) w else w in
      merge_loop input_dir total (S idx) rest all_text w
  end.

(** [merge_ocr_results(input_dir, output_file)], [listing] being what
    [os.listdir(input_dir)] returns; [None] stands for an exception that
    leaves the function. *)
Definition merge_ocr_results (input_dir output_file : string)
    (listing : list string) (w : world) : option world :=
  let txt_files := discover listing in
  match txt_files with
  | [] => Some (print (PrintNoFiles input_dir) w)
  | _ =>
      let n := length txt_files in
      let w := print PrintMerging (print (PrintFound n) w) in
      '(all_text, w) ← merge_loop input_dir n 1 txt_files [] w;
      let w := write_lines output_file all_text w in
      Some (print (PrintPages n)
              (print (PrintOutput output_file) (print PrintDone w)))
  end.

(** The loop of [merge_ocr_results_clean]. *)
Fixpoint merge_loop_clean (input_dir : string) (txt_files : list string)
    (all_text : list string) (w : world) : option (list string) :=
  match txt_files with
  | [] => Some all_text
  | txt_file :: rest =>
      let txt_path := Py.os_path_join input_dir txt_file in
      content ← read_text txt_path w;
      let all_text :=
        (all_text ++ [content; String "010"%char (String "010"%char "")])%list in
      merge_loop_clean input_dir rest all_text w
  end.

Definition merge_ocr_results_clean (input_dir output_file : string)
    (listing : list string) (w : world) : option world :=
  let txt_files := discover listing in
  match txt_files with
  | [] => Some (print (PrintNoFiles input_dir) w)
  | _ =>
      let n := length txt_files in
      let w := print PrintMergingClean (print (PrintFound n) w) in
      all_text ← merge_loop_clean input_dir txt_files [] w;
      let w := write_lines output_file all_text w in
      Some (print (PrintPages n)
              (print (PrintOutput output_file) (print PrintDone w)))
  end.

(** *** Vocabulary of the specification *)



End Merger.

(** ** The command line of merge_ocr_results.py *)

Module MergerMain.
Import Merger.

(** How the script ends: with [sys.exit(1)] after the usage text or after
    the complaint about the directory, or with what the merge did. *)
Inductive outcome :=
| Usage
| NoSuchDirectory (input_dir : string)
| Ran (r : option world).

(** The flag test [len(sys.argv) > 2 and sys.argv[2] == "--clean"], on
    what follows [sys.argv[1]]. *)
Definition clean_mode (rest : list string) : bool :=
  match rest with
  | arg :: _ => String.eqb arg "--clean"
  | [] => false
  end.

(** The [__main__] block, run with [sys.argv = argv]; [dir_exists] is
    [os.path.exists] and [listing] what [os.listdir(input_dir)] returns.
    Both merge functions are called with their default output file. *)
Definition main (argv : list string) (dir_exists : string → bool)
    (listing : list string) (w : world) : outcome :=
  match argv with
  | _ :: input_dir :: rest =>
      if negb (dir_exists input_dir) then NoSuchDirectory input_dir
      else if clean_mode rest then
        Ran (merge_ocr_results_clean input_dir "final_ocr_result_clean.txt"
               listing w)
      else
        Ran (merge_ocr_results input_dir "final_ocr_result.txt" listing w)
  | _ => Usage
  end.

End MergerMain.

(** ** Concrete inputs *)

Module Examples.
Import Driver.

(** The default settings: three tries, and [float("1.2")] seconds between
    pages, written as the binary64 value it denotes. *)
Definition cfg : config := {| max_retries := 3; sleep_time := 0x1.3333333333333p+0%float |}.

(** A fresh run: no text file, empty log, no request sent. *)
Definition fresh : world :=
  {| texts := ∅; log := []; calls := 0; sleeps := [] |}.

(** [{"OCRExitCode": 1, "ParsedResults": [{"ParsedText": text}]}] *)
Definition ok_response (text : string) : pyval :=
  PDict (<[ "OCRExitCode" := PInt 1 ]>
           (<[ "ParsedResults" :=
                 PList [PDict (<[ "ParsedText" := PStr text ]> ∅)] ]> ∅)).

(** [{"OCRExitCode": 1, "ParsedResults": []}] *)
Definition empty_results_response : pyval :=
  PDict (<[ "OCRExitCode" := PInt 1 ]> (<[ "ParsedResults" := PList [] ]> ∅)).

(** [{"OCRExitCode": 1, "ParsedResults": [{"ParsedText": null}]}] *)
Definition null_text_response : pyval :=
  PDict (<[ "OCRExitCode" := PInt 1 ]>
           (<[ "ParsedResults" :=
                 PList [PDict (<[ "ParsedText" := PNone ]> ∅)] ]> ∅)).

(** [{"OCRExitCode": 3, "ErrorMessage": "E"}] *)
Definition error_response : pyval :=
  PDict (<[ "OCRExitCode" := PInt 3 ]> (<[ "ErrorMessage" := PStr "E" ]> ∅)).

(** A service that gives the same answer to every request. *)
Definition always (r : post_result) : service := λ _ _, r.


(** A merger world holding the two page texts "A" and "B". *)
Definition two_pages : Merger.world :=
  {| Merger.texts := <[ "ocr_text/page_001.pdf.txt" := "A" ]>
                       (<[ "ocr_text/page_002.pdf.txt" := "B" ]> ∅);
     Merger.stdout := [] |}.
End Examples.

Module PyFacts.
Import Py.
#[local] Arguments String.append : simpl nomatch.


Lemma length_app (a b : string) :
  String.length (a +:+ b) = String.length a + String.length b.
Proof. induction a as [|c a IH]; simpl; [done | by rewrite IH]. Qed.



Lemma app_assoc_str (a b c : string) : (a +:+ b) +:+ c = a +:+ b +:+ c.
Proof. induction a as [|x a IH]; simpl; [done | by rewrite IH]. Qed.

Lemma app_inj_r (a b c : string) : a +:+ c = b +:+ c → a = b.
Proof.
  revert b. induction a as [|x a IH]; intros [|y b] Heq; simpl in Heq.
  - done.
  - apply (f_equal String.length) in Heq. simpl in Heq.
    rewrite length_app in Heq. lia.
  - apply (f_equal String.length) in Heq. simpl in Heq.
    rewrite length_app in Heq. lia.
  - injection Heq as -> Heq. f_equal. by apply IH.
Qed.

Lemma parse_nat_zeros (k : nat) (s : string) :
  parse_nat (zeros k +:+ s) = parse_nat s.
Proof.
  induction k as [|k IH]; [done|].
  rewrite <- IH. unfold parse_nat. simpl.
  by destruct (NilEmpty.uint_of_string (zeros k +:+ s)) as [d|].
Qed.

Lemma parse_nat_str_of_nat (n : nat) : parse_nat (str_of_nat n) = Some n.
Proof.
  unfold parse_nat, str_of_nat, NilZero.string_of_uint.
  rewrite <- (DecimalNat.Unsigned.of_to n) at 2.
  destruct (Nat.to_uint n) as [|d|d|d|d|d|d|d|d|d|d] eqn:E; [done|..];
    by rewrite NilEmpty.usu.
Qed.

Lemma parse_nat_format_03d (n : nat) : parse_nat (format_03d n) = Some n.
Proof. unfold format_03d. by rewrite parse_nat_zeros, parse_nat_str_of_nat. Qed.

Lemma format_03d_inj (m n : nat) : format_03d m = format_03d n → m = n.
Proof.
  intros Heq. apply (f_equal parse_nat) in Heq.
  rewrite !parse_nat_format_03d in Heq. congruence.
Qed.

Lemma os_path_join_relative (a b : string) :
  startswith b "/" = false →
  ∃ a', os_path_join a b = a' +:+ b ∧ ∀ c, startswith c "/" = false →
                                           os_path_join a c = a' +:+ c.
Proof.
  intros Hb. unfold os_path_join. rewrite Hb.
  destruct (String.eqb a "" || endswith a "/").
  - exists a. split; [done|]. by intros c ->.
  - exists (a +:+ "/"). split; [by rewrite app_assoc_str|].
    intros c ->. by rewrite app_assoc_str.
Qed.
End PyFacts.


(** ** The splitter *)

Module SplitterFacts.
Import Py PyFacts Splitter.
#[local] Arguments String.append : simpl nomatch.

Example page_name_first : page_name 0 = "page_001.pdf".
Proof. reflexivity. Qed.

Example page_name_42 : page_name 41 = "page_042.pdf".
Proof. reflexivity. Qed.

Example page_name_1000 : page_name 999 = "page_1000.pdf".
Proof. reflexivity. Qed.

Lemma page_name_inj (i j : nat) : page_name i = page_name j → i = j.
Proof.
  unfold page_name. intros Heq.
  apply String.app_inj in Heq. apply app_inj_r in Heq.
  apply format_03d_inj in Heq. lia.
Qed.

Lemma page_name_relative (i : nat) : startswith (page_name i) "/" = false.
Proof. reflexivity. Qed.


Lemma output_path_inj (output_dir : string) (i j : nat) :
  os_path_join output_dir (page_name i) = os_path_join output_dir (page_name j) →
  i = j.
Proof.
  destruct (os_path_join_relative output_dir (page_name i)
              (page_name_relative i)) as (a' & -> & Hother).
  rewrite (Hother _ (page_name_relative j)).
  intros Heq. apply String.app_inj in Heq. by apply page_name_inj.
Qed.


Section WithPages.
Context {page : Type}.
Implicit Types (st : store page) (pages : list page).

Lemma split_loop_dirs output_dir i pages st :
  dirs (split_loop output_dir i pages st) = dirs st.
Proof.
  revert i st. induction pages as [|p pages IH]; intros i st; simpl; [done|].
  by rewrite IH.
Qed.

Lemma split_loop_frame output_dir i pages st path :
  path ∉ output_paths output_dir i (length pages) →
  pdfs (split_loop output_dir i pages st) !! path = pdfs st !! path.
Proof.
  revert i st. induction pages as [|p pages IH]; intros i st Hnot; simpl;
    [done|].
  unfold output_paths in Hnot. simpl in Hnot.
  apply not_elem_of_cons in Hnot as [Hne Hnot].
  rewrite IH by done. simpl. by rewrite lookup_insert_ne.
Qed.

Lemma split_loop_page output_dir i pages st k p :
  pages !! k = Some p →
  pdfs (split_loop output_dir i pages st)
    !! os_path_join output_dir (page_name (i + k)) = Some [p].
Proof.
  revert i st k. induction pages as [|q pages IH]; intros i st k Hk;
    [done|].
  destruct k as [|k]; simpl in *.
  - injection Hk as ->. rewrite Nat.add_0_r.
    rewrite split_loop_frame; [simpl; by rewrite lookup_insert_eq|].
    unfold output_paths. intros Hin.
    apply list_elem_of_fmap in Hin as (j & Heq & Hj).
    apply output_path_inj in Heq. apply elem_of_seq in Hj. lia.
  - replace (i + S k) with (S i + k) by lia. by apply IH.
Qed.

End WithPages.
End SplitterFacts.

Module SplitterSpec.
Import Py PyFacts Splitter SplitterFacts.

End SplitterSpec.

(** ** Lexicographic order of the page file names *)

Module OrderFacts.
Import Py PyFacts Splitter SplitterFacts.
Import Driver (txt_name).







(** Sorting a rearrangement of a sorted list of names gives that list. *)
Lemma sorted_of_permutation (l names : list string) :
  l ≡ₚ names → Sorted str_le names → sorted l = names.
Proof.
  intros Hperm Hsorted. unfold sorted, str_le in *.
  apply (Sorted_unique String.le); [apply Sorted_merge_sort; apply _|done|].
  by rewrite merge_sort_Permutation.
Qed.

Lemma filter_all {A} (P : A → Prop) `{∀ x, Decision (P x)} (l : list A) :
  Forall P l → filter P l = l.
Proof.
  induction 1 as [|x l Hx _ IH]; [done|].
  by rewrite filter_cons_True, IH.
Qed.
End OrderFacts.

Module OrderSpec.
Import Py PyFacts Splitter SplitterFacts OrderFacts.
Import Driver (txt_name).



End OrderSpec.

Module DriverFacts.
Import Py PyFacts Driver.

(** Unfolding one turn of the retry loop down to the world it leaves. *)
Ltac unfold_attempt :=
  unfold attempt, try_body, handler_pause, ocr_single_pdf, post, open_w,
    file_write, write_log, sleep, lift, raise, mbind, M_bind, mret, M_ret
    in *.

(** The two keys of the text lookup, made opaque so that no lookup is
    computed while the cases are split. *)
Ltac opaque_keys :=
  set (k1 := "ParsedResults") in *; set (k2 := "ParsedText") in *;
  clearbody k1 k2.

(** The shapes a decoded response can have along
    [result["ParsedResults"][0]["ParsedText"]]. *)
Ltac split_lookup d k1 k2 :=
  destruct (d !! k1) as [[|?|?|?|[|? ?]|[|[|?|?|?|?|?|?] ?]|?]|] eqn:?;
    simpl;
  try match goal with
      | |- context [?p !! k2] =>
          destruct (p !! k2) as [[|?|?|?|?|?|?]|] eqn:?; simpl
      end.

Lemma raw_body_exit_code (raw : string) :
  exit_code_ok (json_or_error (RawBody raw)) = false.
Proof.
  unfold exit_code_ok, json_or_error, dict_get.
  by rewrite !lookup_insert_ne, lookup_empty.
Qed.

Lemma raw_body_error_msg (raw : string) :
  error_msg_of (json_or_error (RawBody raw))
  = FromResponse (PStr "Invalid JSON response").
Proof.
  unfold error_msg_of, json_or_error, dict_get.
  by rewrite lookup_insert_ne, lookup_insert_eq, lookup_insert_ne,
    lookup_empty.
Qed.

Section Attempt.
Variables (cfg : config) (api : service).
Variables (retry : Z) (filename pdf_path txt_path : string).

Lemma attempt_success (w : world) (text : string) :
  success_text (api (calls w) pdf_path) = Some text →
  attempt cfg api retry filename pdf_path txt_path w =
    (Returned true,
     {| texts := <[ txt_path := text ]> (texts w);
        log := log w ++ [LogAttempt (retry + 1) (max_retries cfg) filename;
                         LogSuccess filename];
        calls := S (calls w);
        sleeps := sleeps w |}).
Proof.
  unfold success_text, parsed_text, first_parsed_text.
  unfold_attempt. unfold getitem_key, getitem_0.
  opaque_keys. simpl.
  destruct (api (calls w) pdf_path) as [| |b]; try done.
  destruct (exit_code_ok (json_or_error b)); [|done].
  destruct (json_or_error b) as [| | | | | |d]; try done.
  split_lookup d k1 k2; try done.
  intros Heq. injection Heq as ->.
  by rewrite insert_insert_eq, <- app_assoc.
Qed.

(** A turn that does not meet the success condition goes on to the next
    one, having sent one request; it leaves the text files alone, except
    that a text that is not a [str] leaves the file opened and empty. *)
Lemma attempt_no_success (w : world) :
  success_text (api (calls w) pdf_path) = None →
  let r := attempt cfg api retry filename pdf_path txt_path w in
  r.1 = Next ∧
  calls r.2 = S (calls w) ∧
  (texts r.2 = texts w ∨ texts r.2 = <[ txt_path := "" ]> (texts w)) ∧
  (api_fails (api (calls w) pdf_path) = true → texts r.2 = texts w).
Proof.
  unfold success_text, api_fails, parsed_text, first_parsed_text.
  unfold_attempt. unfold getitem_key, getitem_0.
  opaque_keys. simpl.
  destruct (api (calls w) pdf_path) as [| |b]; simpl.
  - destruct (retry <? max_retries cfg - 1)%Z; simpl; auto.
  - destruct (retry <? max_retries cfg - 1)%Z; simpl; auto.
  - destruct (exit_code_ok (json_or_error b)); simpl.
    + destruct (json_or_error b) as [| | | | | |d]; simpl;
        try (destruct (retry <? max_retries cfg - 1)%Z; simpl; by auto).
      split_lookup d k1 k2; try done;
        destruct (retry <? max_retries cfg - 1)%Z; simpl;
        intros _; repeat split; auto;
        intros Hf;
        first [ discriminate Hf
              | apply bool_decide_eq_false in Hf; exfalso; apply Hf;
                by eauto ].
    + destruct (retry <? max_retries cfg - 1)%Z; simpl; auto.
Qed.

(** Exit code 1 with an empty list of parsed results: the subscript
    raises [IndexError], which the second handler logs as an exception
    before the flat five-second pause. *)
Lemma attempt_empty_parsed_results (w : world) (b : http_body) :
  api (calls w) pdf_path = PostResponse b →
  empty_parsed_results (json_or_error b) = true →
  attempt cfg api retry filename pdf_path txt_path w =
    (Next,
     {| texts := texts w;
        log := log w ++ [LogAttempt (retry + 1) (max_retries cfg) filename;
                         LogException filename IndexError];
        calls := S (calls w);
        sleeps := sleeps w ++
                  (if (retry <? max_retries cfg - 1)%Z
                   then [Seconds 5] else []) |}).
Proof.
  unfold empty_parsed_results. intros Hb He.
  apply andb_true_iff in He as [Hcode He].
  unfold_attempt. unfold getitem_key, getitem_0.
  opaque_keys. simpl. rewrite Hb, Hcode.
  destruct (json_or_error b) as [| | | | | |d]; try done.
  revert He. split_lookup d k1 k2; try done.
  intros _. destruct (retry <? max_retries cfg - 1)%Z; simpl;
    by rewrite <- ?app_assoc, ?app_nil_r.
Qed.

(** A response that is not JSON: [ocr_single_pdf] turns it into an error
    [dict], which the [else] branch logs as a failure before the
    escalating pause. *)
Lemma attempt_raw_body (w : world) (raw : string) :
  api (calls w) pdf_path = PostResponse (RawBody raw) →
  attempt cfg api retry filename pdf_path txt_path w =
    (Next,
     {| texts := texts w;
        log := log w ++
               [LogAttempt (retry + 1) (max_retries cfg) filename;
                LogFailure filename
                  (FromResponse (PStr "Invalid JSON response"))] ++
               (if (retry <? max_retries cfg - 1)%Z
                then [LogWait ((retry + 1) * 2)] else []);
        calls := S (calls w);
        sleeps := sleeps w ++
                  (if (retry <? max_retries cfg - 1)%Z
                   then [Seconds ((retry + 1) * 2)] else []) |}).
Proof.
  intros Hb. unfold_attempt.
  cbn -[json_or_error exit_code_ok error_msg_of]. rewrite Hb.
  cbn -[json_or_error exit_code_ok error_msg_of].
  pose proof (raw_body_exit_code raw) as Hcode.
  pose proof (raw_body_error_msg raw) as Hmsg.
  rewrite Hcode, Hmsg.
  destruct (retry <? max_retries cfg - 1)%Z; simpl;
    by rewrite <- ?app_assoc, ?app_nil_r.
Qed.

Lemma touched_refl m : touched txt_path m m.
Proof. by left. Qed.

Lemma touched_trans m1 m2 m3 : touched txt_path m1 m2 → touched txt_path m2 m3 → touched txt_path m1 m3.
Proof.
  intros [->|[s ->]] [->|[s' ->]]; unfold touched; eauto.
  right. exists s'. by rewrite insert_insert_eq.
Qed.


Lemma touched_frame m m' p : touched txt_path m m' → p ≠ txt_path → m' !! p = m !! p.
Proof. intros [->|[s ->]] Hne; [done|]. by rewrite lookup_insert_ne. Qed.

Lemma touched_mono m m' p : touched txt_path m m' → is_Some (m !! p) → is_Some (m' !! p).
Proof.
  intros [->|[s ->]] Hp; [done|].
  destruct (decide (txt_path = p)) as [->|Hne].
  - rewrite lookup_insert_eq. eauto.
  - by rewrite lookup_insert_ne.
Qed.

(** Every turn falls under one of the two descriptions above. *)
Lemma attempt_cases (w : world) :
  let r := attempt cfg api retry filename pdf_path txt_path w in
  calls r.2 = S (calls w) ∧ touched txt_path (texts w) (texts r.2) ∧
  match success_text (api (calls w) pdf_path) with
  | Some text =>
      r.1 = Returned true ∧ texts r.2 = <[ txt_path := text ]> (texts w)
  | None => r.1 = Next
  end.
Proof.
  destruct (success_text (api (calls w) pdf_path)) as [text|] eqn:Hs.
  - rewrite (attempt_success w text Hs). simpl.
    repeat split; [right; eauto].
  - destruct (attempt_no_success w Hs) as (Hf & Hc & Ht & _).
    repeat split; [done| |done].
    destruct Ht as [->| ->]; [by left | right; eauto].
Qed.
End Attempt.

Section RetryLoop.
Variables (cfg : config) (api : service).
Variables (filename pdf_path txt_path : string).

Lemma retry_loop_cons (retry : Z) (rest : list Z) (w : world) :
  retry_loop cfg api (retry :: rest) filename pdf_path txt_path w =
    match attempt cfg api retry filename pdf_path txt_path w with
    | (Returned b, w') => (Returned b, w')
    | (Next, w') => retry_loop cfg api rest filename pdf_path txt_path w'
    end.
Proof. done. Qed.

(** The loop only ever leaves through [return True]; it sends at most
    one request per turn and touches no file but the page's output. *)
Lemma retry_loop_invariant (retries : list Z) (w : world) :
  let r := retry_loop cfg api retries filename pdf_path txt_path w in
  touched txt_path (texts w) (texts r.2) ∧
  calls w ≤ calls r.2 ≤ calls w + length retries ∧
  (r.1 = Next ∨
   r.1 = Returned true ∧ is_Some (texts r.2 !! txt_path)).
Proof.
  revert w. induction retries as [|retry rest IH]; intros w.
  - simpl. split; [apply touched_refl|]. split; [lia|by left].
  - rewrite retry_loop_cons.
    pose proof (attempt_cases cfg api retry filename pdf_path txt_path w)
      as (Hc & Ht & Hcase).
    destruct (attempt cfg api retry filename pdf_path txt_path w) as [f w'] eqn:E.
    simpl in Hc, Ht, Hcase.
    destruct (success_text (api (calls w) pdf_path)) as [text|].
    + destruct Hcase as [-> Htext]. simpl.
      split; [done|]. split; [lia|]. right. split; [done|].
      rewrite Htext, lookup_insert_eq. eauto.
    + subst f. specialize (IH w'). simpl in IH |- *.
      destruct IH as (Ht' & Hc' & Hflow).
      split; [by eapply touched_trans|]. split; [lia|done].
Qed.

(** Failures on every turn: the loop runs to its end, one request per
    turn. *)
Lemma retry_loop_all_fail (retries : list Z) (w : world) :
  (∀ i, i < length retries →
        success_text (api (calls w + i) pdf_path) = None) →
  let r := retry_loop cfg api retries filename pdf_path txt_path w in
  r.1 = Next ∧ calls r.2 = calls w + length retries ∧
  ((∀ i, i < length retries →
         api_fails (api (calls w + i) pdf_path) = true) →
   texts r.2 = texts w).
Proof.
  revert w. induction retries as [|retry rest IH]; intros w Hfail.
  - simpl. split; [done|]. split; [lia|done].
  - rewrite retry_loop_cons.
    assert (success_text (api (calls w) pdf_path) = None) as Hs.
    { rewrite <- (Nat.add_0_r (calls w)). apply Hfail. simpl. lia. }
    destruct (attempt_no_success cfg api retry filename pdf_path txt_path
                w Hs) as (Hf & Hc & _ & Hkeep).
    destruct (attempt cfg api retry filename pdf_path txt_path w) as [f w'] eqn:E.
    simpl in Hf, Hc, Hkeep. subst f.
    destruct (IH w') as (Hf' & Hc' & Hkeep').
    { intros i Hi. rewrite Hc.
      replace (S (calls w) + i) with (calls w + S i) by lia.
      apply Hfail. simpl. lia. }
    simpl in *. split; [done|]. split; [lia|].
    intros Hall. rewrite Hkeep'.
    + apply Hkeep. rewrite <- (Nat.add_0_r (calls w)). apply Hall. lia.
    + intros i Hi. rewrite Hc.
      replace (S (calls w) + i) with (calls w + S i) by lia.
      apply Hall. lia.
Qed.

End RetryLoop.

Lemma api_fails_no_success (r : post_result) :
  api_fails r = true → success_text r = None.
Proof.
  unfold api_fails, success_text, parsed_text.
  destruct r as [| |b]; try done.
  intros Hf. apply negb_true_iff, andb_false_iff in Hf as [->|Hf]; [done|].
  apply bool_decide_eq_false in Hf.
  destruct (exit_code_ok _); [|done].
  destruct (first_parsed_text _); [|done].
  exfalso. apply Hf. eauto.
Qed.

Lemma path_exists_is_Some (p : string) (w : world) :
  path_exists p w = true ↔ is_Some (texts w !! p).
Proof. unfold path_exists. apply bool_decide_eq_true. Qed.


Section Process.
Variables (cfg : config) (api : service).
Variables (pdf_path txt_path : string).

(** The resume check: an existing output is logged as skipped and
    nothing else happens. *)
Lemma process_skip (w : world) :
  path_exists txt_path w = true →
  process_single_file cfg api pdf_path txt_path w =
    (true, {| texts := texts w;
              log := log w ++ [LogSkip (basename pdf_path)];
              calls := calls w;
              sleeps := sleeps w |}).
Proof. intros He. unfold process_single_file. by rewrite He. Qed.

Lemma process_invariant (w : world) :
  let r := process_single_file cfg api pdf_path txt_path w in
  touched txt_path (texts w) (texts r.2) ∧
  calls w ≤ calls r.2 ≤ calls w + Z.to_nat (max_retries cfg) ∧
  (r.1 = true → is_Some (texts r.2 !! txt_path)).
Proof.
  unfold process_single_file.
  destruct (path_exists txt_path w) eqn:He; simpl.
  - split; [apply touched_refl|]. split; [lia|].
    intros _. by apply path_exists_is_Some.
  - pose proof (retry_loop_invariant cfg api (basename pdf_path) pdf_path
                  txt_path (range (max_retries cfg)) w) as (Ht & Hc & Hf).
    unfold range in *. rewrite length_seqZ in Hc.
    destruct (retry_loop _ _ _ _ _ _ _) as [[b|] w'] eqn:E; simpl in *.
    + split; [done|]. split; [done|].
      destruct Hf as [Hf|[Hf Hs]]; [done|]. by intros _.
    + split; [done|]. split; [done|]. done.
Qed.

Lemma process_all_fail (w : world) :
  path_exists txt_path w = false →
  (∀ i, i < Z.to_nat (max_retries cfg) →
        api_fails (api (calls w + i) pdf_path) = true) →
  let r := process_single_file cfg api pdf_path txt_path w in
  r.1 = false ∧
  texts r.2 = texts w ∧
  calls r.2 = calls w + Z.to_nat (max_retries cfg) ∧
  last (log r.2) = Some (LogFinalFailure (basename pdf_path)).
Proof.
  intros He Hfail. unfold process_single_file. rewrite He.
  pose proof (retry_loop_all_fail cfg api (basename pdf_path) pdf_path
                txt_path (range (max_retries cfg)) w) as Hloop.
  unfold range in *. rewrite length_seqZ in Hloop.
  destruct Hloop as (Hf & Hc & Ht).
  { intros i Hi. by apply api_fails_no_success, Hfail. }
  destruct (retry_loop _ _ _ _ _ _ _) as [f w'] eqn:E; simpl in *.
  subst f. simpl. split; [done|]. split; [by apply Ht|]. split; [done|].
  apply last_snoc.
Qed.

End Process.

(** *** The paths of a batch *)

Lemma startswith_slash (c : ascii) (rest : string) :
  startswith (String c rest) "/" = Ascii.eqb c "/".
Proof. cbn [startswith]. apply andb_true_r. Qed.



Section Batch.
Variables (cfg : config) (api : service) (pdf_dir : string) (total : nat).

Lemma after_page_texts idx w : texts (after_page cfg total idx w) = texts w.
Proof. unfold after_page. by destruct (idx <? total). Qed.

Lemma after_page_calls idx w : calls (after_page cfg total idx w) = calls w.
Proof. unfold after_page. by destruct (idx <? total). Qed.

(** One turn of the batch loop: whatever the page's outcome, one of the
    two counters goes up by one and the loop goes on with the rest. *)
Lemma batch_loop_cons (idx : nat) (pdf_file : string) (rest : list string)
    (t : tally) (w : world) :
  batch_loop cfg api pdf_dir total idx (pdf_file :: rest) t w =
    let r := process_single_file cfg api (pdf_path_of pdf_dir pdf_file)
               (txt_path_of pdf_file) (at_page total idx w) in
    batch_loop cfg api pdf_dir total (S idx) rest
      (if r.1
       then {| success_count := success_count t + 1;
               failed_count := failed_count t |}
       else {| success_count := success_count t;
               failed_count := failed_count t + 1 |})
      (after_page cfg total idx r.2).
Proof.
  cbn [batch_loop]. unfold at_page, after_page.
  by destruct (process_single_file _ _ _ _ _) as [b w'].
Qed.


(** Text files are never removed, and a page file only ever touches the
    text named after it. *)
Lemma batch_loop_texts (idx : nat) (pdf_files : list string) (t : tally)
    (w : world) (p : string) :
  let r := batch_loop cfg api pdf_dir total idx pdf_files t w in
  (is_Some (texts w !! p) → is_Some (texts r.2 !! p)) ∧
  ((∀ f, f ∈ pdf_files → txt_path_of f ≠ p) →
   texts r.2 !! p = texts w !! p).
Proof.
  revert idx t w. induction pdf_files as [|f rest IH]; intros idx t w.
  - done.
  - rewrite batch_loop_cons. cbn zeta.
    pose proof (process_invariant cfg api (pdf_path_of pdf_dir f)
                  (txt_path_of f) (at_page total idx w)) as (Ht & _ & _).
    destruct (process_single_file _ _ _ _ _) as [b w'].
    simpl in Ht |- *.
    match goal with
    | |- context [batch_loop _ _ _ _ ?i _ ?t' ?w''] =>
        destruct (IH i t' w'') as [IH1 IH2]
    end.
    rewrite after_page_texts in IH1, IH2. split.
    + intros Hp. apply IH1. by eapply touched_mono.
    + intros Hne. rewrite IH2.
      * eapply touched_frame; [done|]. intros Heq.
        apply (Hne f); [apply list_elem_of_here | done].
      * intros g Hg. apply Hne. by apply list_elem_of_further.
Qed.


End Batch.

(** *** The whole batch *)

Lemma write_logs_eq (es : list event) (w : world) :
  write_logs es w =
    {| texts := texts w; log := log w ++ es; calls := calls w;
       sleeps := sleeps w |}.
Proof.
  revert w. induction es as [|e es IH]; intros w.
  - simpl. rewrite app_nil_r. by destruct w.
  - unfold write_logs in *. simpl. rewrite IH. simpl.
    by rewrite <- app_assoc.
Qed.

Lemma sorted_nil : Py.sorted [] = [].
Proof. reflexivity. Qed.

Lemma filter_none {A} (P : A → Prop) `{∀ x, Decision (P x)} (l : list A) :
  (∀ x, x ∈ l → ¬ P x) → filter P l = [].
Proof.
  induction l as [|x l IH]; intros Hall; [done|].
  rewrite filter_cons_False by (apply Hall, list_elem_of_here).
  apply IH. intros y Hy. by apply Hall, list_elem_of_further.
Qed.

Lemma batch_process_some (cfg : config) (api : service) (pdf_dir : string)
    (listing : list string) (w : world) :
  discover listing ≠ [] →
  batch_process cfg api pdf_dir listing w =
    let n := length (discover listing) in
    let r := batch_loop cfg api pdf_dir n 1 (discover listing)
               {| success_count := 0; failed_count := 0 |}
               (write_logs [LogStart n; LogRule] w) in
    (Some r.1, write_logs (summary n r.1) r.2).
Proof.
  intros Hne. unfold batch_process.
  destruct (discover listing) as [|f rest] eqn:E; [done|].
  cbn zeta. by destruct (batch_loop _ _ _ _ _ _ _ _) as [t w'].
Qed.

Lemma batch_process_none (cfg : config) (api : service) (pdf_dir : string)
    (listing : list string) (w : world) :
  discover listing = [] →
  batch_process cfg api pdf_dir listing w =
    (None, {| texts := texts w; log := log w ++ [LogNoFiles pdf_dir];
              calls := calls w; sleeps := sleeps w |}).
Proof. intros Hnil. unfold batch_process. by rewrite Hnil. Qed.
End DriverFacts.

Module DriverSpec.
Import Py PyFacts Driver DriverFacts Examples.




(** C6, as amended: on a response with exit code 1 and an empty list of
    parsed results, the subscript raises an index error that the general
    handler catches: the turn is logged as an exception carrying that
    error, the flat five-second pause follows when turns remain, the
    output file is not written, and the loop goes on to the next turn. *)
Theorem empty_parsed_results_retried (cfg : config) (api : service)
    (retry : Z) (filename pdf_path txt_path : string) (w : world)
    (b : http_body) :
  api (calls w) pdf_path = PostResponse b →
  empty_parsed_results (json_or_error b) = true →
  attempt cfg api retry filename pdf_path txt_path w =
    (Next,
     {| texts := texts w;
        log := log w ++ [LogAttempt (retry + 1) (max_retries cfg) filename;
                         LogException filename IndexError];
        calls := S (calls w);
        sleeps := sleeps w ++
                  (if (retry <? max_retries cfg - 1)%Z
                   then [Seconds 5] else []) |}).
Proof. apply attempt_empty_parsed_results. Qed.

Lemma empty_parsed_results_retried_witness :
  attempt cfg (always (PostResponse (JsonBody empty_results_response))) 0
    "page_001.pdf" "pages/page_001.pdf" "ocr_text/page_001.pdf.txt" fresh =
    (Next,
     {| texts := ∅;
        log := [LogAttempt 1 3 "page_001.pdf";
                LogException "page_001.pdf" IndexError];
        calls := 1;
        sleeps := [Seconds 5] |}).
Proof.
  apply (empty_parsed_results_retried cfg
           (always (PostResponse (JsonBody empty_results_response))) 0
           "page_001.pdf" "pages/page_001.pdf" "ocr_text/page_001.pdf.txt"
           fresh (JsonBody empty_results_response)).
  - reflexivity.
  - vm_compute. reflexivity.
Defined.

(** C6 as stated fails: the empty list is not handled like a response
    that is not JSON.  The latter is logged as a failure with the message
    of the stand-in [dict] and followed by the escalating pause; the former
    is logged as an exception with the index error and followed by the flat
    pause.  Neither log line carries the raw body. *)
Lemma empty_parsed_results_not_malformed :
  let empty := attempt cfg
                 (always (PostResponse (JsonBody empty_results_response))) 0
                 "page_001.pdf" "pages/page_001.pdf"
                 "ocr_text/page_001.pdf.txt" fresh in
  let raw := attempt cfg (always (PostResponse (RawBody "<html>"))) 0
               "page_001.pdf" "pages/page_001.pdf"
               "ocr_text/page_001.pdf.txt" fresh in
  log empty.2 = [LogAttempt 1 3 "page_001.pdf";
                 LogException "page_001.pdf" IndexError] ∧
  sleeps empty.2 = [Seconds 5] ∧
  log raw.2 = [LogAttempt 1 3 "page_001.pdf";
               LogFailure "page_001.pdf"
                 (FromResponse (PStr "Invalid JSON response"));
               LogWait 2] ∧
  sleeps raw.2 = [Seconds 2] ∧
  log empty.2 ≠ log raw.2.
Proof.
  cbn zeta.
  rewrite (attempt_empty_parsed_results cfg _ 0 _ _ _ fresh
             (JsonBody empty_results_response));
    [|reflexivity|vm_compute; reflexivity].
  rewrite (attempt_raw_body cfg _ 0 _ _ _ fresh "<html>"); [|reflexivity].
  simpl. repeat split. discriminate.
Qed.






End DriverSpec.

Module MergerFacts.
Import Py PyFacts OrderFacts Merger.

Lemma discover_sorted_names (listing names : list string) :
  listing ≡ₚ names →
  Forall (λ f, endswith f ".txt" = true) names →
  Sorted str_le names →
  discover listing = names.
Proof.
  intros Hperm Hall Hsorted. unfold discover.
  rewrite filter_all by (by rewrite Hperm).
  by apply sorted_of_permutation.
Qed.

Lemma discover_none (listing : list string) :
  (∀ f, f ∈ listing → endswith f ".txt" = false) → discover listing = [].
Proof.
  intros Hall. unfold discover. rewrite DriverFacts.filter_none; [done|].
  intros f Hf. rewrite (Hall f Hf). done.
Qed.
End MergerFacts.

Module MergerSpec.
Import Py PyFacts OrderFacts Merger MergerFacts.

(** C7: for a directory that holds exactly [page_001.pdf.txt] with content
    "A" and [page_002.pdf.txt] with content "B", listed in any order, the
    plain merge writes "A", two line feeds, "B", two line feeds; the
    annotated merge writes, in that same file order, for each file a blank
    line, a rule of sixty "=", a line with the file's name, another rule,
    and then the file's content. *)
Theorem merge_two_pages (input_dir output_file : string)
    (listing : list string) (w : world) :
  listing ≡ₚ ["page_001.pdf.txt"; "page_002.pdf.txt"] →
  texts w !! os_path_join input_dir "page_001.pdf.txt" = Some "A" →
  texts w !! os_path_join input_dir "page_002.pdf.txt" = Some "B" →
  (∃ w', merge_ocr_results_clean input_dir output_file listing w = Some w' ∧
         texts w' !! output_file
           = Some ("A" +:+ nl +:+ nl +:+ "B" +:+ nl +:+ nl)) ∧
  (∃ w', merge_ocr_results input_dir output_file listing w = Some w' ∧
         texts w' !! output_file
           = Some (nl +:+ rule +:+ nl
                     +:+ "📄 文件: page_001.pdf.txt" +:+ nl
                     +:+ rule +:+ nl +:+ "A"
                   +:+ nl +:+ rule +:+ nl
                     +:+ "📄 文件: page_002.pdf.txt" +:+ nl
                     +:+ rule +:+ nl +:+ "B")).
Proof.
  intros Hperm HA HB.
  assert (discover listing = ["page_001.pdf.txt"; "page_002.pdf.txt"])
    as Hfiles.
  { apply discover_sorted_names; [done| |].
    - repeat constructor.
    - apply (bool_decide_unpack _). vm_compute. reflexivity. }
  split.
  - unfold merge_ocr_results_clean. rewrite Hfiles. cbn zeta.
    cbn [merge_loop_clean]. unfold read_text.
    set (pA := os_path_join input_dir "page_001.pdf.txt") in *.
    set (pB := os_path_join input_dir "page_002.pdf.txt") in *.
    simpl. rewrite HA, HB. simpl.
    eexists. split; [reflexivity|]. simpl. by rewrite lookup_insert_eq.
  - unfold merge_ocr_results. rewrite Hfiles. cbn zeta.
    cbn [merge_loop]. unfold read_text.
    set (pA := os_path_join input_dir "page_001.pdf.txt") in *.
    set (pB := os_path_join input_dir "page_002.pdf.txt") in *.
    simpl. rewrite HA. simpl. rewrite HB. simpl.
    eexists. split; [reflexivity|]. simpl. by rewrite lookup_insert_eq.
Qed.

Lemma merge_two_pages_witness :
  (∃ w', merge_ocr_results_clean "ocr_text" "final_ocr_result_clean.txt"
           ["page_002.pdf.txt"; "page_001.pdf.txt"] Examples.two_pages
         = Some w' ∧
         texts w' !! "final_ocr_result_clean.txt"
           = Some ("A" +:+ nl +:+ nl +:+ "B" +:+ nl +:+ nl)) ∧
  (∃ w', merge_ocr_results "ocr_text" "final_ocr_result_clean.txt"
           ["page_002.pdf.txt"; "page_001.pdf.txt"] Examples.two_pages
         = Some w' ∧
         texts w' !! "final_ocr_result_clean.txt"
           = Some (nl +:+ rule +:+ nl
                     +:+ "📄 文件: page_001.pdf.txt" +:+ nl
                     +:+ rule +:+ nl +:+ "A"
                   +:+ nl +:+ rule +:+ nl
                     +:+ "📄 文件: page_002.pdf.txt" +:+ nl
                     +:+ rule +:+ nl +:+ "B")).
Proof.
  apply (merge_two_pages "ocr_text" "final_ocr_result_clean.txt"
           ["page_002.pdf.txt"; "page_001.pdf.txt"] Examples.two_pages).
  - apply perm_swap.
  - vm_compute. reflexivity.
  - vm_compute. reflexivity.
Defined.
End MergerSpec.

Module PipelineSpec.
Import Py PyFacts.

(** C8: when the listed directory is empty or holds no file with the
    expected extension, the driver logs that no PDF file was found and the
    two merge functions print that no text file was found; each returns
    normally, and apart from that one report nothing changes: no text file
    is written, no request is sent, no pause is taken. *)
Theorem no_files_found (cfg : Driver.config) (api : Driver.service)
    (pdf_dir input_dir output_file : string)
    (pdf_listing txt_listing : list string)
    (dw : Driver.world) (mw : Merger.world) :
  (∀ f, f ∈ pdf_listing → endswith f ".pdf" = false) →
  (∀ f, f ∈ txt_listing → endswith f ".txt" = false) →
  Driver.batch_process cfg api pdf_dir pdf_listing dw =
    (None, {| Driver.texts := Driver.texts dw;
              Driver.log := Driver.log dw ++ [Driver.LogNoFiles pdf_dir];
              Driver.calls := Driver.calls dw;
              Driver.sleeps := Driver.sleeps dw |}) ∧
  Merger.merge_ocr_results input_dir output_file txt_listing mw =
    Some {| Merger.texts := Merger.texts mw;
            Merger.stdout := Merger.stdout mw
                               ++ [Merger.PrintNoFiles input_dir] |} ∧
  Merger.merge_ocr_results_clean input_dir output_file txt_listing mw =
    Some {| Merger.texts := Merger.texts mw;
            Merger.stdout := Merger.stdout mw
                               ++ [Merger.PrintNoFiles input_dir] |}.
Proof.
  intros Hpdf Htxt. split; [|split].
  - apply DriverFacts.batch_process_none. unfold Driver.discover.
    rewrite DriverFacts.filter_none; [done|].
    intros f Hf. by rewrite (Hpdf f Hf).
  - unfold Merger.merge_ocr_results.
    by rewrite MergerFacts.discover_none.
  - unfold Merger.merge_ocr_results_clean.
    by rewrite MergerFacts.discover_none.
Qed.

Lemma no_files_found_witness :
  Driver.batch_process Examples.cfg (Examples.always Driver.PostTimeout)
    "pages" ["notes.txt"] Examples.fresh =
    (None, {| Driver.texts := ∅;
              Driver.log := [Driver.LogNoFiles "pages"];
              Driver.calls := 0;
              Driver.sleeps := [] |}) ∧
  Merger.merge_ocr_results "ocr_text" "final_ocr_result.txt" []
    Examples.two_pages =
    Some {| Merger.texts := Merger.texts Examples.two_pages;
            Merger.stdout := [Merger.PrintNoFiles "ocr_text"] |} ∧
  Merger.merge_ocr_results_clean "ocr_text" "final_ocr_result.txt" []
    Examples.two_pages =
    Some {| Merger.texts := Merger.texts Examples.two_pages;
            Merger.stdout := [Merger.PrintNoFiles "ocr_text"] |}.
Proof.
  apply (no_files_found Examples.cfg (Examples.always Driver.PostTimeout)
           "pages" "ocr_text" "final_ocr_result.txt" ["notes.txt"] []
           Examples.fresh Examples.two_pages).
  - intros f Hf. apply list_elem_of_singleton in Hf as ->. reflexivity.
  - intros f Hf. by apply elem_of_nil in Hf.
Defined.
End PipelineSpec.

(** ** Further properties of the driver *)

Module PauseFacts.
Import Py PyFacts Driver DriverFacts.

(** The pauses of a full loop in which every turn but the last one
    pauses. *)
Lemma pauses_of_range (n : Z) (d : Z → delay) :
  flat_map (λ r, if (r <? n - 1)%Z then [d r] else []) (seqZ 0 n)
  = d <$> seqZ 0 (n - 1).
Proof.
  destruct (decide (n ≤ 0)%Z) as [Hle|Hgt].
  - by rewrite !seqZ_nil by lia.
  - assert (seqZ 0 n = seqZ 0 (n - 1) ++ [(n - 1)%Z]) as ->.
    { replace n with (Z.of_nat (S (Z.to_nat (n - 1)))) at 1 by lia.
      rewrite seqZ_S. f_equal; [f_equal; lia|f_equal; lia]. }
    rewrite flat_map_app. simpl. rewrite Z.ltb_irrefl, app_nil_r.
    assert (Forall (λ r, r < n - 1)%Z (seqZ 0 (n - 1))) as Hall.
    { apply Forall_seqZ. intros k Hk. lia. }
    induction Hall as [|r l Hr _ IH]; [done|]. simpl.
    replace (r <? n - 1)%Z with true by (symmetry; by apply Z.ltb_lt).
    simpl. by rewrite IH.
Qed.

Section Loop.
Variables (cfg : config) (api : service).
Variables (filename pdf_path txt_path : string).
Variable P : post_result → Prop.
Variable pause : Z → list delay.
Hypothesis attempt_pause : ∀ retry w,
  P (api (calls w) pdf_path) →
  let r := attempt cfg api retry filename pdf_path txt_path w in
  r.1 = Next ∧ calls r.2 = S (calls w) ∧
  sleeps r.2 = sleeps w ++ pause retry.

Lemma retry_loop_pauses (retries : list Z) (w : world) :
  (∀ i, i < length retries → P (api (calls w + i) pdf_path)) →
  let r := retry_loop cfg api retries filename pdf_path txt_path w in
  r.1 = Next ∧ sleeps r.2 = sleeps w ++ flat_map pause retries.
Proof.
  revert w. induction retries as [|retry rest IH]; intros w HP.
  - simpl. by rewrite app_nil_r.
  - rewrite retry_loop_cons.
    destruct (attempt_pause retry w) as (Hf & Hc & Hs).
    { rewrite <- (Nat.add_0_r (calls w)). apply HP. simpl. lia. }
    destruct (attempt _ _ _ _ _ _ _) as [f w']. simpl in Hf, Hc, Hs.
    subst f. destruct (IH w') as [Hf' Hs'].
    { intros i Hi. rewrite Hc.
      replace (S (calls w) + i) with (calls w + S i) by lia.
      apply HP. simpl. lia. }
    simpl in *. split; [done|]. by rewrite Hs', Hs, <- app_assoc.
Qed.
End Loop.

(** A response without the exit code 1: the [else] branch. *)
Lemma attempt_error_response (cfg : config) (api : service) (retry : Z)
    (filename pdf_path txt_path : string) (w : world) (b : http_body) :
  api (calls w) pdf_path = PostResponse b →
  exit_code_ok (json_or_error b) = false →
  attempt cfg api retry filename pdf_path txt_path w =
    (Next,
     {| texts := texts w;
        log := log w ++
               [LogAttempt (retry + 1) (max_retries cfg) filename;
                LogFailure filename (error_msg_of (json_or_error b))] ++
               (if (retry <? max_retries cfg - 1)%Z
                then [LogWait ((retry + 1) * 2)] else []);
        calls := S (calls w);
        sleeps := sleeps w ++
                  (if (retry <? max_retries cfg - 1)%Z
                   then [Seconds ((retry + 1) * 2)] else []) |}).
Proof.
  intros Hb Hcode. unfold_attempt.
  cbn -[json_or_error exit_code_ok error_msg_of]. rewrite Hb.
  cbn -[json_or_error exit_code_ok error_msg_of]. rewrite Hcode.
  destruct (retry <? max_retries cfg - 1)%Z; simpl;
    by rewrite <- ?app_assoc, ?app_nil_r.
Qed.

(** A request that raises: one of the two handlers. *)
Lemma attempt_request_raises (cfg : config) (api : service) (retry : Z)
    (filename pdf_path txt_path : string) (w : world) :
  (api (calls w) pdf_path = PostTimeout ∨
   ∃ msg, api (calls w) pdf_path = PostError msg) →
  attempt cfg api retry filename pdf_path txt_path w =
    (Next,
     {| texts := texts w;
        log := log w ++
               [LogAttempt (retry + 1) (max_retries cfg) filename;
                match api (calls w) pdf_path with
                | PostError msg => LogException filename (RequestError msg)
                | _ => LogTimeout filename
                end];
        calls := S (calls w);
        sleeps := sleeps w ++
                  (if (retry <? max_retries cfg - 1)%Z
                   then [Seconds 5] else []) |}).
Proof.
  intros [Hb|[msg Hb]]; unfold_attempt; simpl; rewrite Hb; simpl;
    destruct (retry <? max_retries cfg - 1)%Z; simpl;
    by rewrite <- ?app_assoc, ?app_nil_r.
Qed.
End PauseFacts.

Module FootprintFacts.
Import Py PyFacts Driver DriverFacts.

Lemma extends_refl w : extends w w.
Proof. by split. Qed.

Lemma extends_trans w1 w2 w3 : extends w1 w2 → extends w2 w3 → extends w1 w3.
Proof. intros [? ?] [? ?]. split; by etrans. Qed.

Ltac solve_prefix :=
  solve [ simpl; split; repeat first [ reflexivity | apply prefix_app_r ] ].

Lemma attempt_extends (cfg : config) (api : service) (retry : Z)
    (filename pdf_path txt_path : string) (w : world) :
  extends w (attempt cfg api retry filename pdf_path txt_path w).2.
Proof.
  unfold extends. unfold_attempt. unfold getitem_key, getitem_0.
  opaque_keys. simpl.
  destruct (api (calls w) pdf_path) as [| |b]; simpl.
  - destruct (retry <? max_retries cfg - 1)%Z; solve_prefix.
  - destruct (retry <? max_retries cfg - 1)%Z; solve_prefix.
  - destruct (exit_code_ok (json_or_error b)); simpl.
    + destruct (json_or_error b) as [| | | | | |d]; simpl;
        try (destruct (retry <? max_retries cfg - 1)%Z; solve_prefix).
      split_lookup d k1 k2;
        try (destruct (retry <? max_retries cfg - 1)%Z); solve_prefix.
    + destruct (retry <? max_retries cfg - 1)%Z; solve_prefix.
Qed.

Lemma retry_loop_extends (cfg : config) (api : service) (retries : list Z)
    (filename pdf_path txt_path : string) (w : world) :
  extends w (retry_loop cfg api retries filename pdf_path txt_path w).2.
Proof.
  revert w. induction retries as [|retry rest IH]; intros w.
  - apply extends_refl.
  - rewrite retry_loop_cons.
    pose proof (attempt_extends cfg api retry filename pdf_path txt_path w)
      as Ha.
    destruct (attempt _ _ _ _ _ _ _) as [[b|] w']; simpl in *; [done|].
    eapply extends_trans; [exact Ha | apply IH].
Qed.

Lemma process_extends (cfg : config) (api : service)
    (pdf_path txt_path : string) (w : world) :
  extends w (process_single_file cfg api pdf_path txt_path w).2.
Proof.
  unfold process_single_file.
  destruct (path_exists txt_path w).
  - solve_prefix.
  - pose proof (retry_loop_extends cfg api (range (max_retries cfg))
                  (basename pdf_path) pdf_path txt_path w) as Hl.
    destruct (retry_loop _ _ _ _ _ _ _) as [[b|] w']; simpl in *; [done|].
    eapply extends_trans; [exact Hl | solve_prefix].
Qed.

Lemma batch_loop_extends (cfg : config) (api : service) (pdf_dir : string)
    (total idx : nat) (pdf_files : list string) (t : tally) (w : world) :
  let r := batch_loop cfg api pdf_dir total idx pdf_files t w in
  extends w r.2 ∧
  calls w ≤ calls r.2
    ≤ calls w + length pdf_files * Z.to_nat (max_retries cfg).
Proof.
  revert idx t w. induction pdf_files as [|f rest IH]; intros idx t w.
  - simpl. split; [apply extends_refl | lia].
  - rewrite batch_loop_cons. cbn zeta.
    pose proof (process_invariant cfg api (pdf_path_of pdf_dir f)
                  (txt_path_of f) (at_page total idx w)) as (_ & Hc & _).
    pose proof (process_extends cfg api (pdf_path_of pdf_dir f)
                  (txt_path_of f) (at_page total idx w)) as He.
    destruct (process_single_file _ _ _ _ _) as [b w'].
    simpl in Hc, He |- *.
    match goal with
    | |- context [batch_loop _ _ _ _ ?i _ ?t' ?w''] =>
        destruct (IH i t' w'') as [IHe IHc]
    end.
    rewrite after_page_calls in IHc. split; [|lia].
    eapply extends_trans; [|exact IHe].
    eapply extends_trans; [|eapply extends_trans; [exact He|]].
    + unfold at_page. solve_prefix.
    + unfold after_page. destruct (idx <? total); solve_prefix.
Qed.
End FootprintFacts.

Module NonTextFacts.
Import Py PyFacts Driver DriverFacts.

Section Page.
Variables (cfg : config) (api : service).
Variables (filename pdf_path txt_path : string).

(** A turn whose response passes the exit-code test but carries a
    [ParsedText] that is not a [str]. *)
Lemma attempt_non_text (retry : Z) (w : world) (b : http_body) (v : pyval) :
  api (calls w) pdf_path = PostResponse b →
  exit_code_ok (json_or_error b) = true →
  first_parsed_text (json_or_error b) = Some v →
  type_of v ≠ TStr →
  let r := attempt cfg api retry filename pdf_path txt_path w in
  r.1 = Next ∧ calls r.2 = S (calls w) ∧
  texts r.2 = <[ txt_path := "" ]> (texts w).
Proof.
  unfold first_parsed_text. intros Hb Hcode.
  unfold_attempt. unfold getitem_key, getitem_0.
  opaque_keys. simpl. rewrite Hb, Hcode.
  destruct (json_or_error b) as [| | | | | |d]; try done.
  split_lookup d k1 k2; try done;
    intros Heq Hty; injection Heq as <-; try done;
    by destruct (retry <? max_retries cfg - 1)%Z.
Qed.

Lemma retry_loop_non_text (retries : list Z) (w : world) :
  retries ≠ [] →
  (∀ i, i < length retries →
        ∃ b v, api (calls w + i) pdf_path = PostResponse b ∧
               exit_code_ok (json_or_error b) = true ∧
               first_parsed_text (json_or_error b) = Some v ∧
               type_of v ≠ TStr) →
  let r := retry_loop cfg api retries filename pdf_path txt_path w in
  r.1 = Next ∧ texts r.2 = <[ txt_path := "" ]> (texts w).
Proof.
  revert w. induction retries as [|retry rest IH]; intros w Hne Hall;
    [done|].
  rewrite retry_loop_cons.
  destruct (Hall 0) as (b & v & Hb & Hcode & Hv & Hty); [simpl; lia|].
  rewrite Nat.add_0_r in Hb.
  destruct (attempt_non_text retry w b v Hb Hcode Hv Hty)
    as (Hf & Hc & Ht).
  destruct (attempt _ _ _ _ _ _ _) as [f w']. simpl in Hf, Hc, Ht.
  subst f. destruct rest as [|retry' rest'].
  - done.
  - destruct (IH w') as [Hf' Ht']; [done| |].
    + intros i Hi. rewrite Hc.
      replace (S (calls w) + i) with (calls w + S i) by lia.
      apply Hall. simpl in *. lia.
    + cbn zeta. split; [done|].
      by rewrite Ht', Ht, insert_insert_eq.
Qed.
End Page.
End NonTextFacts.

Module CleanRunFacts.
Import Py PyFacts Driver DriverFacts.


Section Batch.
Variables (cfg : config) (api : service) (pdf_dir : string) (total : nat).
Variable text : string → string.

End Batch.

End CleanRunFacts.

Module PathFacts.
Import Py PyFacts Driver DriverFacts.
#[local] Arguments String.append : simpl nomatch.

Lemma rev_app_rev_app (a b c : string) :
  String.rev_app (String.rev_app a b) c = String.rev_app b (a +:+ c).
Proof.
  revert b c. induction a as [|x a IH]; intros b c; simpl; [done|].
  by rewrite IH.
Qed.

Lemma append_nil_r (a : string) : a +:+ "" = a.
Proof. induction a as [|x a IH]; simpl; [done|]. by rewrite IH. Qed.

(** Without a slash ahead the scan only collects characters. *)
Lemma basename_go_no_slash (f cur : string) :
  "/"%char ∉ list_ascii_of_string f →
  basename_go cur f = String.rev (String.rev_app f cur).
Proof.
  revert cur. induction f as [|c f IH]; intros cur Hf; simpl in *; [done|].
  apply not_elem_of_cons in Hf as [Hc Hf].
  destruct (Ascii.eqb_spec c "/") as [->|_]; [done|].
  by rewrite IH.
Qed.

Lemma basename_no_slash (f : string) :
  "/"%char ∉ list_ascii_of_string f → basename f = f.
Proof.
  intros Hf. unfold basename. rewrite basename_go_no_slash by done.
  unfold String.rev. rewrite rev_app_rev_app. simpl.
  apply append_nil_r.
Qed.

(** A slash makes the scan forget what came before it. *)
Lemma basename_go_slash (a f cur : string) :
  basename_go cur (a +:+ "/" +:+ f) = basename_go "" f.
Proof.
  revert cur. induction a as [|c a IH]; intros cur; simpl; [done|].
  destruct (Ascii.eqb c "/"); apply IH.
Qed.

Lemma endswith_slash (a : string) :
  endswith a "/" = true → ∃ a', a = a' +:+ "/".
Proof.
  unfold endswith. induction a as [|c a IH]; [done|].
  destruct a as [|d a].
  - simpl. destruct (Ascii.eqb_spec c "/") as [->|_]; [|done].
    intros _. by exists "".
  - intros H. destruct IH as [a' Ha'].
    { revert H. cbn [String.length]. simpl.
      by rewrite !Nat.sub_0_r. }
    exists (String c a'). simpl. by rewrite <- Ha'.
Qed.
End PathFacts.

Module DriverExtra.
Import Py PyFacts Driver DriverFacts PauseFacts FootprintFacts NonTextFacts
  CleanRunFacts PathFacts Examples.

(** X1: a response with exit code 1 whose first parsed result holds a
    [ParsedText] that is not a [str] makes [f.write] raise after
    [open(txt_path, "w")] has created the file: the turn is logged as an
    exception, goes on to the next turn, and leaves the output file in
    place, empty. *)
Theorem non_text_payload_leaves_empty_file (cfg : config) (api : service)
    (retry : Z) (filename pdf_path txt_path : string) (w : world)
    (b : http_body) (v : pyval) :
  api (calls w) pdf_path = PostResponse b →
  exit_code_ok (json_or_error b) = true →
  first_parsed_text (json_or_error b) = Some v →
  type_of v ≠ TStr →
  attempt cfg api retry filename pdf_path txt_path w =
    (Next,
     {| texts := <[ txt_path := "" ]> (texts w);
        log := log w ++ [LogAttempt (retry + 1) (max_retries cfg) filename;
                         LogException filename TypeError];
        calls := S (calls w);
        sleeps := sleeps w ++
                  (if (retry <? max_retries cfg - 1)%Z
                   then [Seconds 5] else []) |}).
Proof.
  unfold first_parsed_text. intros Hb Hcode.
  unfold_attempt. unfold getitem_key, getitem_0.
  opaque_keys. simpl. rewrite Hb, Hcode.
  destruct (json_or_error b) as [| | | | | |d]; try done.
  split_lookup d k1 k2; try done;
    intros Heq Hty; injection Heq as <-; try done;
    destruct (retry <? max_retries cfg - 1)%Z; simpl;
    by rewrite <- ?app_assoc, ?app_nil_r.
Qed.

Lemma non_text_payload_leaves_empty_file_witness :
  attempt cfg (always (PostResponse (JsonBody null_text_response))) 2
    "page_001.pdf" "pages/page_001.pdf" "ocr_text/page_001.pdf.txt" fresh =
    (Next,
     {| texts := <[ "ocr_text/page_001.pdf.txt" := "" ]> ∅;
        log := [LogAttempt 3 3 "page_001.pdf";
                LogException "page_001.pdf" TypeError];
        calls := 1;
        sleeps := [] |}).
Proof.
  apply (non_text_payload_leaves_empty_file cfg
           (always (PostResponse (JsonBody null_text_response))) 2
           "page_001.pdf" "pages/page_001.pdf" "ocr_text/page_001.pdf.txt"
           fresh (JsonBody null_text_response) PNone).
  - reflexivity.
  - vm_compute. reflexivity.
  - vm_compute. reflexivity.
  - discriminate.
Defined.

(** X2: when every answer to a page's requests is a response without the
    exit code 1 (an error report of the service, or a body that is not
    JSON), the page fails after [max_retries] requests, no file is
    written, and the waits between the turns grow as 2, 4, 6, ...
    seconds: [(retry + 1) * 2] after every turn but the last. *)
Theorem error_responses_back_off (cfg : config) (api : service)
    (pdf_path txt_path : string) (w : world) :
  path_exists txt_path w = false →
  (∀ i, i < Z.to_nat (max_retries cfg) →
        ∃ b, api (calls w + i) pdf_path = PostResponse b ∧
             exit_code_ok (json_or_error b) = false) →
  let r := process_single_file cfg api pdf_path txt_path w in
  r.1 = false ∧
  texts r.2 = texts w ∧
  calls r.2 = calls w + Z.to_nat (max_retries cfg) ∧
  sleeps r.2 =
    sleeps w ++ ((λ retry, Seconds ((retry + 1) * 2))
                   <$> seqZ 0 (max_retries cfg - 1)).
Proof.
  intros He Hresp.
  destruct (process_all_fail cfg api pdf_path txt_path w He)
    as (Hr & Ht & Hc & _).
  { intros i Hi. destruct (Hresp i Hi) as (b & -> & Hcode).
    simpl. by rewrite Hcode. }
  cbn zeta. repeat split; [done..|].
  unfold process_single_file. rewrite He.
  destruct (retry_loop_pauses cfg api (basename pdf_path) pdf_path txt_path
              (λ r, ∃ b, r = PostResponse b ∧
                         exit_code_ok (json_or_error b) = false)
              (λ retry, if (retry <? max_retries cfg - 1)%Z
                        then [Seconds ((retry + 1) * 2)] else [])
              ltac:(intros retry w0 (b & Hb & Hcode);
                    rewrite (attempt_error_response _ _ _ _ _ _ _ b Hb Hcode);
                    done)
              (range (max_retries cfg)) w) as [Hf Hs].
  { unfold range. rewrite length_seqZ. intros i Hi.
    destruct (Hresp i Hi) as (b & Hb & Hcode). eauto. }
  destruct (retry_loop _ _ _ _ _ _ _) as [f w']. simpl in Hf, Hs.
  subst f. simpl. rewrite Hs. unfold range. by rewrite pauses_of_range.
Qed.

Lemma error_responses_back_off_witness :
  let r := process_single_file cfg
             (always (PostResponse (JsonBody error_response)))
             "pages/page_001.pdf" "ocr_text/page_001.pdf.txt" fresh in
  r.1 = false ∧ texts r.2 = ∅ ∧ calls r.2 = 3 ∧
  sleeps r.2 = [Seconds 2; Seconds 4].
Proof.
  apply (error_responses_back_off cfg
           (always (PostResponse (JsonBody error_response)))
           "pages/page_001.pdf" "ocr_text/page_001.pdf.txt" fresh).
  - reflexivity.
  - intros i _. exists (JsonBody error_response).
    split; [reflexivity | vm_compute; reflexivity].
Defined.

(** X3: when every request of a page times out or raises, the page fails
    after [max_retries] requests, no file is written, and the wait is a
    flat five seconds after every turn but the last. *)
Theorem request_errors_pause_five_seconds (cfg : config) (api : service)
    (pdf_path txt_path : string) (w : world) :
  path_exists txt_path w = false →
  (∀ i, i < Z.to_nat (max_retries cfg) →
        api (calls w + i) pdf_path = PostTimeout ∨
        ∃ msg, api (calls w + i) pdf_path = PostError msg) →
  let r := process_single_file cfg api pdf_path txt_path w in
  r.1 = false ∧
  texts r.2 = texts w ∧
  calls r.2 = calls w + Z.to_nat (max_retries cfg) ∧
  sleeps r.2 =
    sleeps w ++ replicate (Z.to_nat (max_retries cfg - 1)) (Seconds 5).
Proof.
  intros He Hraise.
  destruct (process_all_fail cfg api pdf_path txt_path w He)
    as (Hr & Ht & Hc & _).
  { intros i Hi. by destruct (Hraise i Hi) as [->|[msg ->]]. }
  cbn zeta. repeat split; [done..|].
  unfold process_single_file. rewrite He.
  destruct (retry_loop_pauses cfg api (basename pdf_path) pdf_path txt_path
              (λ r, r = PostTimeout ∨ ∃ msg, r = PostError msg)
              (λ retry, if (retry <? max_retries cfg - 1)%Z
                        then [Seconds 5] else [])
              ltac:(intros retry w0 Hb;
                    rewrite (attempt_request_raises _ _ _ _ _ _ _ Hb);
                    done)
              (range (max_retries cfg)) w) as [Hf Hs].
  { unfold range. rewrite length_seqZ. intros i Hi. by apply Hraise. }
  destruct (retry_loop _ _ _ _ _ _ _) as [f w']. simpl in Hf, Hs.
  subst f. simpl. rewrite Hs. unfold range.
  rewrite (pauses_of_range _ (λ _, Seconds 5)).
  rewrite (const_fmap _ _ (Seconds 5)) by done.
  by rewrite length_seqZ.
Qed.

Lemma request_errors_pause_five_seconds_witness :
  let r := process_single_file cfg (always PostTimeout)
             "pages/page_001.pdf" "ocr_text/page_001.pdf.txt" fresh in
  r.1 = false ∧ texts r.2 = ∅ ∧ calls r.2 = 3 ∧
  sleeps r.2 = [Seconds 5; Seconds 5].
Proof.
  apply (request_errors_pause_five_seconds cfg (always PostTimeout)
           "pages/page_001.pdf" "ocr_text/page_001.pdf.txt" fresh).
  - reflexivity.
  - intros i _. by left.
Defined.

(** X4: with [MAX_RETRIES] set to zero or less the loop body never runs:
    a page without output fails at once, no request is sent, nothing is
    written and nothing is waited for. *)
Theorem no_retries_no_request (cfg : config) (api : service)
    (pdf_path txt_path : string) (w : world) :
  (max_retries cfg ≤ 0)%Z →
  path_exists txt_path w = false →
  process_single_file cfg api pdf_path txt_path w =
    (false, {| texts := texts w;
               log := log w ++ [LogFinalFailure (basename pdf_path)];
               calls := calls w;
               sleeps := sleeps w |}).
Proof.
  intros Hmax He. unfold process_single_file, range. rewrite He.
  by rewrite seqZ_nil by lia.
Qed.

Lemma no_retries_no_request_witness :
  process_single_file {| max_retries := 0; sleep_time := sleep_time cfg |}
    (always (PostResponse (JsonBody (ok_response "text"))))
    "pages/page_001.pdf" "ocr_text/page_001.pdf.txt" fresh =
    (false, {| texts := ∅;
               log := [LogFinalFailure "page_001.pdf"];
               calls := 0;
               sleeps := [] |}).
Proof.
  apply (no_retries_no_request
           {| max_retries := 0; sleep_time := sleep_time cfg |}
           (always (PostResponse (JsonBody (ok_response "text"))))
           "pages/page_001.pdf" "ocr_text/page_001.pdf.txt" fresh).
  - simpl. lia.
  - reflexivity.
Defined.

(** X5: what a batch run can do at most.  The log and the pauses only
    grow; at most [max_retries] requests are sent per page file; no text
    file is ever removed; and no file is touched other than the outputs
    named after the page files found. *)
Theorem batch_process_footprint (cfg : config) (api : service)
    (pdf_dir : string) (listing : list string) (w : world) :
  let r := batch_process cfg api pdf_dir listing w in
  log w `prefix_of` log r.2 ∧
  sleeps w `prefix_of` sleeps r.2 ∧
  calls w ≤ calls r.2
    ≤ calls w + length (discover listing) * Z.to_nat (max_retries cfg) ∧
  (∀ p, is_Some (texts w !! p) → is_Some (texts r.2 !! p)) ∧
  (∀ p, p ∉ txt_path_of <$> discover listing →
        texts r.2 !! p = texts w !! p).
Proof.
  destruct (discover listing) as [|f fs] eqn:Hd.
  - rewrite batch_process_none by done. simpl.
    repeat split; first [lia | done | by apply prefix_app_r].
  - rewrite batch_process_some by (by rewrite Hd). rewrite Hd.
    cbn zeta. rewrite !write_logs_eq.
    set (n := length (f :: fs)).
    set (t0 := {| success_count := 0; failed_count := 0 |}).
    set (w0 := {| texts := texts w; log := log w ++ [LogStart n; LogRule];
                  calls := calls w; sleeps := sleeps w |}).
    pose proof (batch_loop_extends cfg api pdf_dir n 1 (f :: fs) t0 w0)
      as [[Hl Hs] Hc].
    pose proof (λ p, batch_loop_texts cfg api pdf_dir n 1 (f :: fs) t0 w0 p)
      as Ht.
    destruct (batch_loop _ _ _ _ _ _ _ _) as [t w'].
    subst n t0 w0. cbn [fst snd log sleeps calls texts] in *.
    repeat split; try lia.
    + apply prefix_app_r. etrans; [|exact Hl]. by apply prefix_app_r.
    + done.
    + intros p Hp. by apply (Ht p).
    + intros p Hp. apply (Ht p). intros g Hg Heq. apply Hp.
      rewrite <- Heq. by apply (list_elem_of_fmap_2 txt_path_of).
Qed.

(** X6: a page whose every response carries a [ParsedText] that is not a
    string is reported as failed, yet its output file is left behind,
    empty.  The resume check of any later run then takes the page for
    done: it is skipped and counted as a success, without a request. *)
Theorem failed_page_skipped_on_rerun (cfg : config) (api api' : service)
    (pdf_path txt_path : string) (w : world) :
  path_exists txt_path w = false →
  (0 < max_retries cfg)%Z →
  (∀ i, i < Z.to_nat (max_retries cfg) →
        ∃ b v, api (calls w + i) pdf_path = PostResponse b ∧
               exit_code_ok (json_or_error b) = true ∧
               first_parsed_text (json_or_error b) = Some v ∧
               type_of v ≠ TStr) →
  let r := process_single_file cfg api pdf_path txt_path w in
  r.1 = false ∧
  texts r.2 = <[ txt_path := "" ]> (texts w) ∧
  process_single_file cfg api' pdf_path txt_path r.2 =
    (true, {| texts := texts r.2;
              log := log r.2 ++ [LogSkip (basename pdf_path)];
              calls := calls r.2;
              sleeps := sleeps r.2 |}).
Proof.
  intros He Hmax Hall. cbn zeta.
  assert (let r := process_single_file cfg api pdf_path txt_path w in
          r.1 = false ∧ texts r.2 = <[ txt_path := "" ]> (texts w))
    as [Hr Ht].
  { unfold process_single_file. rewrite He.
    destruct (retry_loop_non_text cfg api (basename pdf_path) pdf_path
                txt_path (range (max_retries cfg)) w) as [Hf Ht].
    - unfold range. intros Hnil.
      apply (f_equal length) in Hnil. rewrite length_seqZ in Hnil.
      simpl in Hnil. lia.
    - unfold range. rewrite length_seqZ. exact Hall.
    - destruct (retry_loop _ _ _ _ _ _ _) as [f w']. simpl in Hf, Ht.
      by subst f. }
  repeat split; [done..|].
  apply process_skip, path_exists_is_Some.
  rewrite Ht, lookup_insert_eq. eauto.
Qed.

Lemma failed_page_skipped_on_rerun_witness :
  let r := process_single_file cfg
             (always (PostResponse (JsonBody null_text_response)))
             "pages/page_001.pdf" "ocr_text/page_001.pdf.txt" fresh in
  r.1 = false ∧
  texts r.2 = <[ "ocr_text/page_001.pdf.txt" := "" ]> ∅ ∧
  process_single_file cfg (always PostTimeout)
    "pages/page_001.pdf" "ocr_text/page_001.pdf.txt" r.2 =
    (true, {| texts := texts r.2;
              log := log r.2 ++ [LogSkip "page_001.pdf"];
              calls := calls r.2;
              sleeps := sleeps r.2 |}).
Proof.
  apply (failed_page_skipped_on_rerun cfg
           (always (PostResponse (JsonBody null_text_response)))
           (always PostTimeout)
           "pages/page_001.pdf" "ocr_text/page_001.pdf.txt" fresh).
  - reflexivity.
  - reflexivity.
  - intros i _. exists (JsonBody null_text_response), PNone.
    repeat split; [vm_compute; reflexivity..|discriminate].
Defined.

(** X7: the name a page is logged under.  [os.listdir] gives bare names,
    and for a name without a slash [os.path.basename] undoes the
    [os.path.join] with the page directory, whatever the directory is:
    the log lines of a page carry the name of its file. *)
Theorem basename_of_page_path (pdf_dir pdf_file : string) :
  "/"%char ∉ list_ascii_of_string pdf_file →
  basename (pdf_path_of pdf_dir pdf_file) = pdf_file.
Proof.
  intros Hf. unfold pdf_path_of, os_path_join.
  destruct (startswith pdf_file "/") eqn:Hs.
  { destruct pdf_file as [|c rest]; [done|].
    rewrite startswith_slash in Hs. apply Ascii.eqb_eq in Hs as ->.
    exfalso. apply Hf. simpl. apply list_elem_of_here. }
  destruct (String.eqb_spec pdf_dir "") as [->|_]; simpl.
  { by apply basename_no_slash. }
  unfold basename.
  destruct (endswith pdf_dir "/") eqn:He.
  - apply endswith_slash in He as [a' ->].
    rewrite app_assoc_str.
    rewrite (basename_go_slash a' pdf_file "").
    by apply basename_no_slash.
  - rewrite (basename_go_slash pdf_dir pdf_file "").
    by apply basename_no_slash.
Qed.

Lemma basename_of_page_path_witness :
  basename (pdf_path_of "scans/pages/" "page_007.pdf") = "page_007.pdf".
Proof.
  apply (basename_of_page_path "scans/pages/" "page_007.pdf").
  vm_compute. intros H.
  repeat (apply elem_of_cons in H as [H|H]; [discriminate H|]).
  by apply elem_of_nil in H.
Defined.


End DriverExtra.

(** ** Further properties of the directory scans *)

Module ScanFacts.
Import Py PyFacts OrderFacts.

(** Sorting forgets the order of its input. *)
Lemma sorted_permutation (l1 l2 : list string) :
  l1 ≡ₚ l2 → sorted l1 = sorted l2.
Proof.
  intros Hperm. apply sorted_of_permutation.
  - rewrite Hperm. unfold sorted. by rewrite merge_sort_Permutation.
  - unfold sorted, str_le. apply Sorted_merge_sort. apply _.
Qed.

Lemma sorted_filter_permutation (P : string → Prop)
    `{∀ x, Decision (P x)} (l1 l2 : list string) :
  l1 ≡ₚ l2 → sorted (filter P l1) = sorted (filter P l2).
Proof. intros Hperm. apply sorted_permutation. by rewrite Hperm. Qed.
End ScanFacts.

Module ScanExtra.
Import Py PyFacts ScanFacts.

(** X9: [os.listdir] returns the entries in arbitrary order.  Neither the
    driver nor the two merge functions depend on it: two listings with
    the same entries lead to the same run, file for file and log line
    for log line. *)
Theorem listing_order_is_irrelevant (cfg : Driver.config)
    (api : Driver.service) (pdf_dir input_dir output_file : string)
    (listing1 listing2 : list string)
    (w : Driver.world) (m : Merger.world) :
  listing1 ≡ₚ listing2 →
  Driver.batch_process cfg api pdf_dir listing1 w
    = Driver.batch_process cfg api pdf_dir listing2 w ∧
  Merger.merge_ocr_results input_dir output_file listing1 m
    = Merger.merge_ocr_results input_dir output_file listing2 m ∧
  Merger.merge_ocr_results_clean input_dir output_file listing1 m
    = Merger.merge_ocr_results_clean input_dir output_file listing2 m.
Proof.
  intros Hperm.
  assert (Driver.discover listing1 = Driver.discover listing2) as Hd
    by (by apply sorted_filter_permutation).
  assert (Merger.discover listing1 = Merger.discover listing2) as Hm
    by (by apply sorted_filter_permutation).
  unfold Driver.batch_process, Merger.merge_ocr_results,
    Merger.merge_ocr_results_clean.
  by rewrite Hd, Hm.
Qed.

Lemma listing_order_is_irrelevant_witness :
  Driver.batch_process Examples.cfg (Examples.always Driver.PostTimeout)
    "pages" ["page_002.pdf.txt"; "page_001.pdf.txt"; "page_001.pdf"]
    Examples.fresh
    = Driver.batch_process Examples.cfg (Examples.always Driver.PostTimeout)
        "pages" ["page_001.pdf.txt"; "page_002.pdf.txt"; "page_001.pdf"]
        Examples.fresh ∧
  Merger.merge_ocr_results "ocr_text" "out.txt"
    ["page_002.pdf.txt"; "page_001.pdf.txt"; "page_001.pdf"]
    Examples.two_pages
    = Merger.merge_ocr_results "ocr_text" "out.txt"
        ["page_001.pdf.txt"; "page_002.pdf.txt"; "page_001.pdf"]
        Examples.two_pages ∧
  Merger.merge_ocr_results_clean "ocr_text" "out.txt"
    ["page_002.pdf.txt"; "page_001.pdf.txt"; "page_001.pdf"]
    Examples.two_pages
    = Merger.merge_ocr_results_clean "ocr_text" "out.txt"
        ["page_001.pdf.txt"; "page_002.pdf.txt"; "page_001.pdf"]
        Examples.two_pages.
Proof.
  apply (listing_order_is_irrelevant Examples.cfg
           (Examples.always Driver.PostTimeout) "pages" "ocr_text" "out.txt"
           ["page_002.pdf.txt"; "page_001.pdf.txt"; "page_001.pdf"]
           ["page_001.pdf.txt"; "page_002.pdf.txt"; "page_001.pdf"]
           Examples.fresh Examples.two_pages).
  apply perm_swap.
Defined.
End ScanExtra.

(** ** Further properties of the merger *)

Module MergeFacts.
Import Py PyFacts Merger.




(** A page text that cannot be read makes either loop raise. *)
Lemma merge_loops_raise (input_dir : string) (f : string)
    (txt_files : list string) (w : world) :
  f ∈ txt_files →
  texts w !! os_path_join input_dir f = None →
  (∀ total idx acc w',
     texts w' = texts w →
     merge_loop input_dir total idx txt_files acc w' = None) ∧
  (∀ acc w',
     texts w' = texts w →
     merge_loop_clean input_dir txt_files acc w' = None).
Proof.
  intros Hf Hnone. induction txt_files as [|g rest IH];
    [by apply elem_of_nil in Hf|].
  destruct (texts w !! os_path_join input_dir g) as [s|] eqn:Hg.
  - assert (f ∈ rest) as Hrest.
    { apply elem_of_cons in Hf as [->|Hf]; [congruence|done]. }
    destruct (IH Hrest) as [IH1 IH2]. split.
    + intros total idx acc w' Hw'. cbn [merge_loop].
      unfold read_text. rewrite Hw', Hg. simpl.
      apply IH1. by destruct (_ || _).
    + intros acc w' Hw'. cbn [merge_loop_clean]. unfold read_text.
      rewrite Hw', Hg. simpl. by apply IH2.
  - split.
    + intros total idx acc w' Hw'. cbn [merge_loop].
      unfold read_text. by rewrite Hw', Hg.
    + intros acc w' Hw'. cbn [merge_loop_clean]. unfold read_text.
      by rewrite Hw', Hg.
Qed.
End MergeFacts.

Module MergeExtra.
Import Py PyFacts Merger MergeFacts MergerMain Examples.





(** X12: a page text that is listed but cannot be opened makes the read
    raise, in either mode: the exception leaves the function before the
    output file is opened, so nothing is written. *)
Theorem unreadable_page_aborts_merge (input_dir output_file : string)
    (listing : list string) (w : world) (f : string) :
  f ∈ discover listing →
  texts w !! os_path_join input_dir f = None →
  merge_ocr_results input_dir output_file listing w = None ∧
  merge_ocr_results_clean input_dir output_file listing w = None.
Proof.
  intros Hf Hnone.
  destruct (merge_loops_raise input_dir f (discover listing) w Hf Hnone)
    as [Hloop Hclean].
  unfold merge_ocr_results, merge_ocr_results_clean.
  destruct (discover listing) as [|g gs] eqn:Hd;
    [by apply elem_of_nil in Hf|].
  cbn zeta. by rewrite Hloop, Hclean by done.
Qed.

Lemma unreadable_page_aborts_merge_witness :
  merge_ocr_results "ocr_text" "out.txt"
    ["page_001.pdf.txt"; "page_003.pdf.txt"] two_pages = None ∧
  merge_ocr_results_clean "ocr_text" "out.txt"
    ["page_001.pdf.txt"; "page_003.pdf.txt"] two_pages = None.
Proof.
  apply (unreadable_page_aborts_merge "ocr_text" "out.txt"
           ["page_001.pdf.txt"; "page_003.pdf.txt"] two_pages
           "page_003.pdf.txt").
  - vm_compute. apply list_elem_of_further, list_elem_of_here.
  - vm_compute. reflexivity.
Defined.

(** X13: the command line of the merger.  The usage text offers an output
    file name as second argument, but the script only ever tests that
    argument against ["--clean"]: any other value, like no value at all,
    runs the annotated merge into [final_ocr_result.txt]. *)
Theorem output_name_argument_is_ignored (prog input_dir name : string)
    (more : list string) (dir_exists : string → bool)
    (listing : list string) (w : world) :
  name ≠ "--clean" →
  dir_exists input_dir = true →
  main (prog :: input_dir :: name :: more) dir_exists listing w =
    Ran (merge_ocr_results input_dir "final_ocr_result.txt" listing w) ∧
  main [prog; input_dir] dir_exists listing w =
    Ran (merge_ocr_results input_dir "final_ocr_result.txt" listing w).
Proof.
  intros Hname Hdir. unfold main, clean_mode. rewrite Hdir. simpl.
  by destruct (String.eqb_spec name "--clean").
Qed.

Lemma output_name_argument_is_ignored_witness :
  main ["merge_ocr_results.py"; "ocr_text"; "book.txt"] (λ _, true)
    ["page_001.pdf.txt"; "page_002.pdf.txt"] two_pages =
    Ran (merge_ocr_results "ocr_text" "final_ocr_result.txt"
           ["page_001.pdf.txt"; "page_002.pdf.txt"] two_pages) ∧
  main ["merge_ocr_results.py"; "ocr_text"] (λ _, true)
    ["page_001.pdf.txt"; "page_002.pdf.txt"] two_pages =
    Ran (merge_ocr_results "ocr_text" "final_ocr_result.txt"
           ["page_001.pdf.txt"; "page_002.pdf.txt"] two_pages).
Proof.
  apply (output_name_argument_is_ignored "merge_ocr_results.py" "ocr_text"
           "book.txt" [] (λ _, true)
           ["page_001.pdf.txt"; "page_002.pdf.txt"] two_pages).
  - discriminate.
  - reflexivity.
Defined.
End MergeExtra.

(** ** Further properties of the splitter *)

Module SplitExtra.
Import Py PyFacts Splitter SplitterFacts.

(** X14: running the splitter again on the same document and directory
    changes nothing: every page file is rewritten with the page it
    already holds, and the directory stays. *)
Theorem split_pdf_again_changes_nothing {page : Type}
    (pages : list page) (output_dir : string) (st : store page) :
  split_pdf pages output_dir (split_pdf pages output_dir st).2
    = split_pdf pages output_dir st.
Proof.
  unfold split_pdf. cbn [snd]. f_equal.
  set (st1 := split_loop output_dir 0 pages (makedirs output_dir st)).
  assert (∀ a b : store page, dirs a = dirs b → pdfs a = pdfs b → a = b)
    as store_eq by (intros [] []; simpl; by intros -> ->).
  apply store_eq.
  - unfold st1. rewrite !split_loop_dirs. simpl.
    rewrite split_loop_dirs. simpl.
    by rewrite (assoc_L (∪)), (idemp_L (∪)).
  - apply map_eq. intros path.
    destruct (decide (path ∈ output_paths output_dir 0 (length pages)))
      as [Hin|Hout].
    + unfold output_paths in Hin.
      apply list_elem_of_fmap in Hin as (k & -> & Hk).
      apply elem_of_seq in Hk.
      destruct (lookup_lt_is_Some_2 pages k) as [p Hp]; [lia|].
      rewrite (split_loop_page output_dir 0 pages _ k p Hp).
      unfold st1.
      by rewrite (split_loop_page output_dir 0 pages _ k p Hp).
    + rewrite split_loop_frame by done. simpl. done.
Qed.

(** X15: the splitter never removes a file.  After a document has been
    split, splitting a shorter one into the same directory overwrites the
    first pages only: the page files beyond its length still hold the
    pages of the earlier document. *)
Theorem shorter_document_leaves_stale_pages {page : Type}
    (earlier later : list page) (output_dir : string) (st : store page)
    (k : nat) (p : page) :
  length later ≤ k →
  earlier !! k = Some p →
  pdfs (split_pdf later output_dir
          (split_pdf earlier output_dir st).2).2
    !! os_path_join output_dir (page_name k) = Some [p].
Proof.
  intros Hk Hp. unfold split_pdf. cbn [snd].
  rewrite split_loop_frame.
  - simpl. by apply (split_loop_page output_dir 0).
  - unfold output_paths. intros Hin.
    apply list_elem_of_fmap in Hin as (j & Heq & Hj).
    apply output_path_inj in Heq. apply elem_of_seq in Hj. lia.
Qed.

Lemma shorter_document_leaves_stale_pages_witness :
  pdfs (split_pdf ["x"] "pages"
          (split_pdf ["a"; "b"; "c"] "pages"
             {| dirs := ∅; pdfs := ∅ |}).2).2
    !! "pages/page_003.pdf" = Some ["c"].
Proof.
  apply (shorter_document_leaves_stale_pages ["a"; "b"; "c"] ["x"] "pages"
           {| dirs := ∅; pdfs := ∅ |} 2 "c").
  - simpl. lia.
  - reflexivity.
Defined.
End SplitExtra.
